(** * mopidy_json_client.client: the connection/session layer

    A shallow embedding of [SimpleClient] (src/mopidy_json_client/client.py)
    and the properties of its pending-call table, its retry state machine
    and its inbound dispatch.

    The client is Python 2 code running on two kinds of threads: caller
    threads (connect, disconnect, _server_request) and the WSA thread of
    the websocket library (the on_open / on_close / on_message callbacks).
    The embedding is sequential: a method is a computation in a state and
    exception monad, every observable action (log record, sleep, thread
    start, callback invocation, frame sent) is appended to a trace, and the
    places where a caller thread blocks take the list of transport events
    that the WSA thread handles meanwhile. *)

From Stdlib Require Import ZArith Lia Ascii String.
From stdpp Require Import base option list gmap strings pretty.

Local Open Scope string_scope.
Local Open Scope list_scope.
Local Open Scope Z_scope.

(** ** Data *)

(** JSON values stay opaque: the session layer only forwards them. *)
Definition Json := string.

(** Python exceptions that the modelled code can meet. *)
Inductive Exn :=
| AttributeError (attr : string)   (* [None.send], [None.close] *)
| TypeError                        (* [None += 1] *)
| ValueError                       (* [list.remove] of an absent item *)
| ConnectionClosed                 (* websocket library: send without an open socket *)
| IOError                          (* [time.sleep] of a negative length *)
| MalformedFrame                   (* decode failure *)
| CallTimeout                      (* wait_for_result gave up *)
| HandlerError (name : string).    (* raised by a user supplied callback *)

Inductive Level := DEBUG | INFO | WARNING.

(** A user supplied callback: its name identifies it in the trace, and it
    either returns or raises. *)
Record Callable := { fn_name : string; fn_raises : bool }.

(** messages.py is not part of the sources at hand; a request is what
    client.py uses of it: the identifier compared in [_handle_result], and
    the method and parameters given to the constructor. *)
Record RequestMessage := {
  id_msg : Z;
  req_method : string;
  req_params : list (string * Json)
}.

Global Instance Json_pair_eq_dec : EqDecision (string * Json).
Proof. solve_decision. Defined.

Global Instance RequestMessage_eq_dec : EqDecision RequestMessage.
Proof. solve_decision. Defined.

(** The websocket library's side of a [WebSocketApp]: the url it was
    created with and where its socket stands. *)
Inductive SockStatus := Connecting | Open | Closing | Closed.

Record WebSocketApp := { app_url : string; app_status : SockStatus }.

(** The observable actions, in the order they happen. *)
Inductive Effect :=
| Log (lvl : Level) (template : string)        (* logger.debug / info / warning *)
| LogException (ex : Exn)                       (* logger.exception(ex) *)
| Sleep (secs : Z)                              (* time.sleep *)
| NewWebSocketApp (url : string)                (* websocket.WebSocketApp(url=...) *)
| ThreadStart (name : string)                   (* wsa_thread.start() *)
| Notify                                        (* conn_lock.notify() *)
| SpawnCall (fn : string) (arg : bool)          (* Thread(target=fn, args=(arg,)).start() *)
| Invoke (fn : string) (args : list Json)       (* fn(args), in the current thread *)
| Callback (req : RequestMessage) (result : Json) (* request.callback(result) *)
| Send (req : RequestMessage)                   (* wsa.send(request.json_message) *)
| CloseRequested.                               (* wsa.close() *)

Global Instance Exn_eq_dec : EqDecision Exn.
Proof. solve_decision. Defined.

Global Instance Level_eq_dec : EqDecision Level.
Proof. solve_decision. Defined.

Global Instance Effect_eq_dec : EqDecision Effect.
Proof. solve_decision. Defined.

(** The attributes an instance carries.  [request_queue] is not among
    them: no method ever assigns [self.request_queue], so the name always
    resolves to the class attribute (see [State] and [World]). *)
Record Client := {
  event_handler : option Callable;
  error_handler : option Callable;
  connection_handler : option Callable;
  retry_max : Z;
  retry_secs : Z;
  retry_attemp : option Z;
  ws_url : string;
  connected : bool;
  wsa : option WebSocketApp
}.

(** What a method running on one instance can see and change: the class
    level list [SimpleClient.request_queue], the instance itself, the
    trace, and the identifier the next [RequestMessage] receives. *)
Record State := {
  request_queue : list RequestMessage;
  self : Client;
  trace : list Effect;
  next_id : Z
}.

(** Attribute assignment. *)
Definition set_retry_attemp (v : option Z) (c : Client) : Client :=
  {| event_handler := event_handler c; error_handler := error_handler c;
     connection_handler := connection_handler c;
     retry_max := retry_max c; retry_secs := retry_secs c;
     retry_attemp := v;
     ws_url := ws_url c; connected := connected c; wsa := wsa c |}.

Definition set_ws_url (v : string) (c : Client) : Client :=
  {| event_handler := event_handler c; error_handler := error_handler c;
     connection_handler := connection_handler c;
     retry_max := retry_max c; retry_secs := retry_secs c;
     retry_attemp := retry_attemp c;
     ws_url := v; connected := connected c; wsa := wsa c |}.

Definition set_connected (v : bool) (c : Client) : Client :=
  {| event_handler := event_handler c; error_handler := error_handler c;
     connection_handler := connection_handler c;
     retry_max := retry_max c; retry_secs := retry_secs c;
     retry_attemp := retry_attemp c;
     ws_url := ws_url c; connected := v; wsa := wsa c |}.

Definition set_wsa (v : option WebSocketApp) (c : Client) : Client :=
  {| event_handler := event_handler c; error_handler := error_handler c;
     connection_handler := connection_handler c;
     retry_max := retry_max c; retry_secs := retry_secs c;
     retry_attemp := retry_attemp c;
     ws_url := ws_url c; connected := connected c; wsa := v |}.

Definition with_self (f : Client -> Client) (s : State) : State :=
  {| request_queue := request_queue s; self := f (self s);
     trace := trace s; next_id := next_id s |}.

Definition with_queue (f : list RequestMessage -> list RequestMessage)
    (s : State) : State :=
  {| request_queue := f (request_queue s); self := self s;
     trace := trace s; next_id := next_id s |}.

Definition with_trace (f : list Effect -> list Effect) (s : State) : State :=
  {| request_queue := request_queue s; self := self s;
     trace := f (trace s); next_id := next_id s |}.

Definition with_next_id (f : Z -> Z) (s : State) : State :=
  {| request_queue := request_queue s; self := self s;
     trace := trace s; next_id := f (next_id s) |}.

(** ** The monad of methods: state and exceptions *)

Inductive Outcome (A : Type) :=
| Returns (a : A)
| Raises (e : Exn).
Arguments Returns {A} a.
Arguments Raises {A} e.

Definition M (A : Type) : Type := State -> Outcome A * State.

Definition ret {A} (a : A) : M A := fun s => (Returns a, s).

Definition bind {A B} (m : M A) (k : A -> M B) : M B :=
  fun s => match m s with
           | (Returns a, s') => k a s'
           | (Raises e, s') => (Raises e, s')
           end.

Definition raise {A} (e : Exn) : M A := fun s => (Raises e, s).

(** [try: body except Exception as ex: handler ex] *)
Definition try_except {A} (body : M A) (handler : Exn -> M A) : M A :=
  fun s => match body s with
           | (Returns a, s') => (Returns a, s')
           | (Raises e, s') => handler e s'
           end.

Definition get {A} (f : State -> A) : M A := fun s => (Returns (f s), s).

Definition modify (f : State -> State) : M unit := fun s => (Returns tt, f s).

Definition emit (e : Effect) : M unit := modify (with_trace (fun t => t ++ [e])).

Notation "'let*' x ':=' m 'in' k" := (bind m (fun x => k))
  (at level 10, x name, m at level 100, k at level 200).
Notation "m1 >>> m2" := (bind m1 (fun _ => m2))
  (at level 60, right associativity).

(** [for x in xs: body x] *)
Fixpoint for_each {A} (xs : list A) (body : A -> M unit) : M unit :=
  match xs with
  | [] => ret tt
  | x :: rest => body x >>> for_each rest body
  end.

(** Python truth values of the tested expressions. *)
Definition truthy_int (n : Z) : bool := negb (n =? 0).

Definition truthy_str (u : option string) : bool :=
  match u with
  | Some s => negb (String.eqb s "")
  | None => false
  end.

(** Calling a user callback synchronously. *)
Definition call (f : Callable) (args : list Json) : M unit :=
  emit (Invoke (fn_name f) args) >>>
  if fn_raises f then raise (HandlerError (fn_name f)) else ret tt.

(** ** The websocket library, as far as the client uses it *)

(** [self.wsa.send(frame)]: an [AttributeError] while [wsa] is [None], the
    library's exception unless the socket is open. *)
Definition wsa_send (req : RequestMessage) : M unit :=
  let* w := get (fun s => wsa (self s)) in
  match w with
  | None => raise (AttributeError "send")
  | Some app =>
      match app_status app with
      | Open => emit (Send req)
      | _ => raise ConnectionClosed
      end
  end.

(** [self.wsa.close()]: asks the library to close; [on_close] comes later,
    from the WSA thread. *)
Definition wsa_close : M unit :=
  let* w := get (fun s => wsa (self s)) in
  match w with
  | None => raise (AttributeError "close")
  | Some app =>
      emit CloseRequested >>>
      modify (with_self (set_wsa
        (Some {| app_url := app_url app;
                 app_status := match app_status app with
                               | Closed => Closed
                               | _ => Closing
                               end |})))
  end.

(** ** The standard library *)

(** [time.sleep(secs)]: Python 2 refuses a negative length with an
    [IOError] (invalid argument), and nothing after the call is run. *)
Definition py_sleep (secs : Z) : M unit :=
  if secs <? 0 then raise IOError else emit (Sleep secs).

(** ** SimpleClient *)

Definition is_connected : M bool := get (fun s => connected (self s)).

Definition _ws_connect : M unit :=
  let* url := get (fun s => ws_url (self s)) in
  emit (NewWebSocketApp url) >>>
  modify (with_self (set_wsa (Some {| app_url := url; app_status := Connecting |}))) >>>
  emit (ThreadStart "WSA-Thread").

Definition _ws_retry : M unit :=
  let* rmax := get (fun s => retry_max (self s)) in
  let* secs := get (fun s => retry_secs (self s)) in
  let* att := get (fun s => retry_attemp (self s)) in
  if rmax <? 0 then
    py_sleep secs >>>
    emit (Log DEBUG "[CONNECTION] Reconnecting to Mopidy Sever") >>>
    _ws_connect
  else
    match att with
    | None =>
        (* Python 2 orders None below every int, so the test holds; the
           increment then fails *)
        py_sleep secs >>> raise TypeError
    | Some a =>
        if a <? rmax then
          py_sleep secs >>>
          modify (with_self (set_retry_attemp (Some (a + 1)))) >>>
          emit (Log DEBUG "[CONNECTION] Reconnecting to Mopidy Sever. Attemp %d/%d") >>>
          _ws_connect
        else
          emit (Log WARNING "[CONNECTION] Reached maximum of attemps to reconnect (%d)")
    end.

Definition _ws_error : M unit := ret tt.

Definition _connection_changed (c : bool) : M unit :=
  modify (with_self (set_connected c)) >>>
  emit Notify >>>
  let* h := get (fun s => connection_handler (self s)) in
  match h with
  | Some f =>
      let* now := get (fun s => connected (self s)) in
      emit (SpawnCall (fn_name f) now)
  | None => ret tt
  end.

Definition _ws_open : M unit :=
  emit (Log INFO "[CONNECTION] Mopidy Server is connected") >>>
  _connection_changed true.

Definition _ws_close : M unit :=
  let* c := is_connected in
  (if c then
     emit (Log INFO "[CONNECTION] Mopidy Sever is disconnected") >>>
     _connection_changed false
   else ret tt) >>>
  let* att := get (fun s => retry_attemp (self s)) in
  match att with
  | Some _ => _ws_retry
  | None => ret tt
  end.

Definition disconnect : M unit :=
  modify (with_self (set_retry_attemp None)) >>>
  let* c := is_connected in
  if c then wsa_close
  else emit (Log WARNING "[CONNECTION] Already disconnected to Mopidy Server").

(** *** Requests and responses *)

(** [list.remove(x)]: drops the first item equal to [x], [ValueError] when
    there is none. *)
Fixpoint py_remove (x : RequestMessage) (q : list RequestMessage)
    : option (list RequestMessage) :=
  match q with
  | [] => None
  | y :: rest =>
      if decide (y = x) then Some rest
      else match py_remove x rest with
           | Some rest' => Some (y :: rest')
           | None => None
           end
  end.

(** The loop of [_handle_result]: the first request carrying the id. *)
Fixpoint first_match (id : Z) (q : list RequestMessage) : option RequestMessage :=
  match q with
  | [] => None
  | r :: rest => if id_msg r =? id then Some r else first_match id rest
  end.

Definition _handle_result (id : Z) (result : Json) : M unit :=
  let* q := get request_queue in
  match first_match id q with
  | Some request =>
      emit (Callback request result) >>>
      match py_remove request q with
      | Some q' => modify (with_queue (fun _ => q'))
      | None => raise ValueError
      end
  | None =>
      emit (Log WARNING "Recieved message (id %d) does not match any request")
  end.

Definition _handle_error (id : Z) (error : Json) : M unit :=
  let* h := get (fun s => error_handler (self s)) in
  match h with
  | Some f => call f [error]
  | None => ret tt
  end.

Definition _handle_event (event : string) (event_data : list (string * Json)) : M unit :=
  let* h := get (fun s => event_handler (self s)) in
  match h with
  | Some f => call f (event :: map snd event_data)
  | None => ret tt
  end.

(** *** Inbound frames *)

(** A text frame as the peer sends it: either not JSON at all, or an
    object of which only the protocol's fields matter. *)
Record JsonObject := {
  f_id : option Z;
  f_result : option Json;
  f_error : option Json;
  f_event : option string;
  f_data : list (string * Json)
}.

Inductive Frame :=
| NotJson (text : string)
| Object (o : JsonObject).

Inductive DecodedFrame :=
| Result (id : Z) (value : Json)
| Error (id : Z) (value : Json)
| Event (name : string) (payload : list (string * Json)).

(** Modelled from the spec: the decoder of messages.py, which is not part
    of the sources at hand.  A [result] field makes a Result, an [error]
    field an Error, an [event] field without identifier an Event; a frame
    of no such shape fails with [MalformedFrame]. *)
Definition decode (f : Frame) : Exn + DecodedFrame :=
  match f with
  | NotJson _ => inl MalformedFrame
  | Object o =>
      match f_result o, f_error o, f_event o, f_id o with
      | Some v, _, _, Some id => inr (Result id v)
      | None, Some e, _, Some id => inr (Error id e)
      | None, None, Some ev, None => inr (Event ev (f_data o))
      | _, _, _, _ => inl MalformedFrame
      end
  end.

(** Modelled from the spec: [ResponseMessage.parse_json_message], absent
    like the decoder.  It hands the decoded frame to the handler that
    [__init__] registered for its kind with [ResponseMessage.set_handlers],
    and a decode failure is raised to its caller. *)
Definition parse_json_message (message : Frame) : M unit :=
  match decode message with
  | inl ex => raise ex
  | inr (Result id v) => _handle_result id v
  | inr (Error id e) => _handle_error id e
  | inr (Event name payload) => _handle_event name payload
  end.

Definition _server_response (message : Frame) : M unit :=
  try_except (parse_json_message message)
             (fun ex => emit (LogException ex)).

(** *** The WSA thread *)

(** What the websocket library reports, each through the callback given to
    [WebSocketApp] in [_ws_connect]. *)
Inductive TransportEvent :=
| OnOpen
| OnClose
| OnError
| OnMessage (message : Frame).

Definition set_status (st : SockStatus) : M unit :=
  modify (with_self (fun c =>
    set_wsa (match wsa c with
             | Some app => Some {| app_url := app_url app; app_status := st |}
             | None => None
             end) c)).

Definition deliver (ev : TransportEvent) : M unit :=
  match ev with
  | OnOpen => set_status Open >>> _ws_open
  | OnClose => set_status Closed >>> _ws_close
  | OnError => _ws_error
  | OnMessage message => _server_response message
  end.

(** The receive loop: one callback per event, in arrival order; a callback
    that raises ends it. *)
Definition wsa_thread (events : list TransportEvent) : M unit :=
  for_each events deliver.

(** What another thread does while this one is blocked: its effects on the
    shared state are seen, its exceptions are not. *)
Definition meanwhile (other : M unit) : M unit :=
  fun s => (Returns tt, snd (other s)).

(** *** connect *)

Definition connect (url : option string) (wait_secs : Z)
    (during : list TransportEvent) : M (option bool) :=
  let* c := is_connected in
  if c then
    emit (Log WARNING "[CONNECTION] Already connected to Mopidy Server at %s") >>>
    ret (Some true)
  else
    (match url with
     | Some u => if truthy_str url then modify (with_self (set_ws_url u)) else ret tt
     | None => ret tt
     end) >>>
    let* rmax := get (fun s => retry_max (self s)) in
    modify (with_self (set_retry_attemp (if truthy_int rmax then Some 0 else None))) >>>
    emit (Log DEBUG "[CONNECTION] Connecting to Mopidy Sever at %s") >>>
    _ws_connect >>>
    if negb (truthy_int wait_secs) then ret None
    else
      (* conn_lock.wait(wait_secs) *)
      meanwhile (wsa_thread during) >>>
      let* c' := is_connected in
      ret (Some c').

(** *** The call facade *)

(** Modelled from the spec: the constructor of [RequestMessage] (absent),
    which gives every request a fresh identifier, assigned monotonically. *)
Definition new_request (method : string) (kwargs : list (string * Json))
    : M RequestMessage :=
  let* n := get next_id in
  modify (with_next_id Z.succ) >>>
  ret {| id_msg := n; req_method := method; req_params := kwargs |}.

Fixpoint delivered (req : RequestMessage) (t : list Effect) : option Json :=
  match t with
  | [] => None
  | Callback r v :: rest =>
      if decide (r = req) then Some v else delivered req rest
  | _ :: rest => delivered req rest
  end.

(** Modelled from the spec: [RequestMessage.wait_for_result] (absent).  The
    caller blocks while the WSA thread handles [during]; it then returns
    what [callback] stored, or gives up with [CallTimeout]. *)
Definition wait_for_result (req : RequestMessage)
    (during : list TransportEvent) : M Json :=
  meanwhile (wsa_thread during) >>>
  let* t := get trace in
  match delivered req t with
  | Some v => ret v
  | None => raise CallTimeout
  end.

Definition _server_request (method : string) (kwargs : list (string * Json))
    (during : list TransportEvent) : M (option Json) :=
  let* request := new_request method kwargs in
  modify (with_queue (fun q => q ++ [request])) >>>
  try_except
    (wsa_send request >>>
     let* server_result := wait_for_result request during in
     ret (Some server_result))
    (fun ex => emit (LogException ex) >>> ret None).

(** *** Construction *)

(** [SimpleClient.__init__].  The instance starts from what the class
    body declares ([connected = False], [wsa = None]); the logging level
    and the [CoreController] wrapper are outside the session layer. *)
Definition __init__ (server_addr : string)
    (on_event on_error on_connection : option Callable)
    (autoconnect : bool) (rmax rsecs : Z)
    (during : list TransportEvent) : M unit :=
  modify (with_self (fun c =>
    {| event_handler := on_event; error_handler := on_error;
       connection_handler := on_connection;
       retry_max := rmax; retry_secs := rsecs;
       retry_attemp := if truthy_int rmax then Some 0 else None;
       ws_url := String.append "ws://" (String.append server_addr "/mopidy/ws");
       connected := connected c; wsa := wsa c |})) >>>
  if autoconnect then connect None 5 during >>> ret tt else ret tt.

(** ** Several instances *)

(** The interpreter's store: the one list bound to
    [SimpleClient.request_queue] in the class body, the instances by
    address, and what all of them share (trace, request identifiers). *)
Record World := {
  cls_request_queue : list RequestMessage;
  instances : gmap nat Client;
  next_obj : nat;
  w_trace : list Effect;
  w_next_id : Z
}.

Definition class_defaults : Client :=
  {| event_handler := None; error_handler := None; connection_handler := None;
     retry_max := 0; retry_secs := 0; retry_attemp := None;
     ws_url := ""; connected := false; wsa := None |}.

Definition empty_world : World :=
  {| cls_request_queue := []; instances := ∅; next_obj := 0%nat;
     w_trace := []; w_next_id := 1 |}.

(** [self.request_queue] on any instance is the class level list. *)
Definition view (w : World) (c : Client) : State :=
  {| request_queue := cls_request_queue w; self := c;
     trace := w_trace w; next_id := w_next_id w |}.

Definition commit (i : nat) (s : State) (w : World) : World :=
  {| cls_request_queue := request_queue s;
     instances := <[i := self s]> (instances w);
     next_obj := next_obj w;
     w_trace := trace s; w_next_id := next_id s |}.

(** Running a method with [self] bound to the instance at address [i]. *)
Definition on_instance {A} (i : nat) (m : M A) (w : World)
    : option (Outcome A * World) :=
  match instances w !! i with
  | Some c => let r := m (view w c) in Some (fst r, commit i (snd r) w)
  | None => None
  end.

(** [SimpleClient(...)]: a new object, then [__init__] on it. *)
Definition SimpleClient (server_addr : string)
    (on_event on_error on_connection : option Callable)
    (autoconnect : bool) (rmax rsecs : Z)
    (during : list TransportEvent) (w : World) : nat * World :=
  let i := next_obj w in
  let r := __init__ server_addr on_event on_error on_connection
                    autoconnect rmax rsecs during (view w class_defaults) in
  (i, {| cls_request_queue := request_queue (snd r);
         instances := <[i := self (snd r)]> (instances w);
         next_obj := S i;
         w_trace := trace (snd r); w_next_id := next_id (snd r) |}).

(** The pending calls as instance [i] sees them. *)
Definition pending_of (i : nat) (w : World) : option (list RequestMessage) :=
  match instances w !! i with
  | Some c => Some (request_queue (view w c))
  | None => None
  end.

(** ** Observations on traces *)

Definition is_attempt (e : Effect) : bool :=
  match e with NewWebSocketApp _ => true | _ => false end.

Definition is_sleep (e : Effect) : bool :=
  match e with Sleep _ => true | _ => false end.

Definition is_status_report (e : Effect) : bool :=
  match e with SpawnCall _ _ => true | _ => false end.

Definition is_callback (e : Effect) : bool :=
  match e with Callback _ _ => true | _ => false end.

Definition is_thread_start (e : Effect) : bool :=
  match e with ThreadStart _ => true | _ => false end.

Definition count (p : Effect -> bool) (t : list Effect) : Z :=
  Z.of_nat (length (filter (fun e => p e = true) t)).

(** Connection attempts made so far. *)
Definition attempts (s : State) : Z := count is_attempt (trace s).

Definition sleeps (s : State) : Z := count is_sleep (trace s).

(** Invocations of the connection-status callback so far. *)
Definition status_reports (s : State) : Z := count is_status_report (trace s).

Definition threads_started (s : State) : Z := count is_thread_start (trace s).

(** Results delivered to waiting callers so far. *)
Definition deliveries (s : State) : Z := count is_callback (trace s).

(** The retry policy still allows an attempt. *)
Definition retries_remaining (s : State) : bool :=
  match retry_attemp (self s) with
  | Some a => (retry_max (self s) <? 0) || (a <? retry_max (self s))
  | None => false
  end.

(** A connection attempt is under way. *)
Definition attempting (s : State) : bool :=
  match wsa (self s) with
  | Some app => match app_status app with Connecting => true | _ => false end
  | None => false
  end.

(** The transport accepts a frame. *)
Definition sendable (s : State) : bool :=
  match wsa (self s) with
  | Some app => match app_status app with Open => true | _ => false end
  | None => false
  end.

(** The transport's own events, as opposed to frames from the peer. *)
Definition connection_event (ev : TransportEvent) : Prop :=
  match ev with
  | OnMessage _ => False
  | _ => True
  end.

(** Every connection attempt fails: the library reports a close, and as
    long as the close handler answers with a new attempt, that one fails
    too.  [None] when the fuel does not suffice. *)
Fixpoint all_attempts_fail (fuel : nat) (s : State) : option State :=
  match fuel with
  | O => None
  | S fuel' =>
      match deliver OnClose s with
      | (Returns _, s') =>
          if attempting s' then all_attempts_fail fuel' s' else Some s'
      | (Raises _, _) => None
      end
  end.

(** ** Sample states *)

Definition on_status : Callable := {| fn_name := "on_status"; fn_raises := false |}.
Definition on_rpc_error : Callable := {| fn_name := "on_rpc_error"; fn_raises := false |}.

(** A client built with [autoconnect=False] and never connected. *)
Definition offline (rmax : Z) : State :=
  snd (__init__ "localhost:6680" None None (Some on_status) false rmax 10 []
         (view empty_world class_defaults)).

(** The same client after [connect()] and the transport's open. *)
Definition online (rmax : Z) : State :=
  snd (deliver OnOpen (snd (connect None 0 [] (offline rmax)))).


Definition get_version (id : Z) : RequestMessage :=
  {| id_msg := id; req_method := "core.get_version"; req_params := [] |}.

(** The connected client after its connection was lost and every retry
    failed. *)
Definition given_up (rmax : Z) : State :=
  match all_attempts_fail (S (Z.to_nat rmax)) (online rmax) with
  | Some s => s
  | None => online rmax
  end.

(** A connected client built with the given retry bound and delay. *)
Definition online_with (rmax rsecs : Z) : State :=
  snd (deliver OnOpen (snd (connect None 0 []
    (snd (__init__ "localhost:6680" None None (Some on_status) false rmax rsecs []
            (view empty_world class_defaults)))))).

(** The same client after [connect()], the attempt still under way. *)
Definition connecting (rmax : Z) : State :=
  snd (connect None 0 [] (offline rmax)).

(** A connected client with call 7 in flight. *)
Definition awaiting : State :=
  with_next_id (fun _ => 8)
    (with_queue (fun _ => [get_version 7]) (online 2)).

Definition error_reply (id : Z) (payload : Json) : Frame :=
  Object {| f_id := Some id; f_result := None; f_error := Some payload;
            f_event := None; f_data := [] |}.

Definition result_reply (id : Z) (payload : Json) : Frame :=
  Object {| f_id := Some id; f_result := Some payload; f_error := None;
            f_event := None; f_data := [] |}.

(** Two clients built one after the other, neither connecting on its own. *)
Definition two_clients : nat * nat * World :=
  let r1 := SimpleClient "alpha:6680" None None None false 2 10 [] empty_world in
  let r2 := SimpleClient "beta:6680" None None None false 2 10 [] (snd r1) in
  (fst r1, fst r2, snd r2).

(** An event frame, and a client whose event handler raises. *)
Definition playback_event : Frame :=
  Object {| f_id := None; f_result := None; f_error := None;
            f_event := Some "track_playback_started";
            f_data := [("tl_track", "{}")] |}.

Definition on_event_raising : Callable :=
  {| fn_name := "on_event"; fn_raises := true |}.

Definition with_event_handler (f : Callable) (s : State) : State :=
  with_self (fun c =>
    {| event_handler := Some f; error_handler := error_handler c;
       connection_handler := connection_handler c;
       retry_max := retry_max c; retry_secs := retry_secs c;
       retry_attemp := retry_attemp c; ws_url := ws_url c;
       connected := connected c; wsa := wsa c |}) s.

(** ** What a close leaves behind *)

(** What handling a close logs and reports before it looks at the retry
    policy: nothing unless the client counted as connected. *)
Definition loss_notice (c : Client) : list Effect :=
  if connected c then
    [Log INFO "[CONNECTION] Mopidy Sever is disconnected"; Notify] ++
    match connection_handler c with
    | Some f => [SpawnCall (fn_name f) false]
    | None => []
    end
  else [].

(** The debug record of a retry: one text without a bound, one with. *)
Definition retry_message (c : Client) : string :=
  if retry_max c <? 0 then "[CONNECTION] Reconnecting to Mopidy Sever"
  else "[CONNECTION] Reconnecting to Mopidy Sever. Attemp %d/%d".

(** One reconnect attempt: the delay, the debug record, a new
    [WebSocketApp] for the stored url, and its thread started. *)
Definition retry_round (c : Client) : list Effect :=
  [Sleep (retry_secs c); Log DEBUG (retry_message c);
   NewWebSocketApp (ws_url c); ThreadStart "WSA-Thread"].

(** The counter after one more automatic attempt. *)
Definition next_attemp (c : Client) (a : Z) : Z :=
  if retry_max c <? 0 then a else a + 1.

(** The instance while a reconnect attempt with counter [a] is under way. *)
Definition reconnecting_client (c : Client) (a : Z) : Client :=
  {| event_handler := event_handler c; error_handler := error_handler c;
     connection_handler := connection_handler c;
     retry_max := retry_max c; retry_secs := retry_secs c;
     retry_attemp := Some a;
     ws_url := ws_url c; connected := false;
     wsa := Some {| app_url := ws_url c; app_status := Connecting |} |}.

(** The instance after a close that was not followed by an attempt. *)
Definition stopped_client (c : Client) : Client :=
  {| event_handler := event_handler c; error_handler := error_handler c;
     connection_handler := connection_handler c;
     retry_max := retry_max c; retry_secs := retry_secs c;
     retry_attemp := retry_attemp c;
     ws_url := ws_url c; connected := false;
     wsa := match wsa c with
            | Some app => Some {| app_url := app_url app; app_status := Closed |}
            | None => None
            end |}.

Definition exhausted_warning : Effect :=
  Log WARNING "[CONNECTION] Reached maximum of attemps to reconnect (%d)".

(** ** Further observations *)

(** Invocations of the connection-status callback with a given flag. *)
Definition is_report (b : bool) (e : Effect) : bool :=
  match e with
  | SpawnCall _ a => Bool.eqb a b
  | _ => false
  end.

Definition reports_of (b : bool) (s : State) : Z := count (is_report b) (trace s).

Definition is_close_request (e : Effect) : bool :=
  match e with CloseRequested => true | _ => false end.

(** Calls of [wsa.close()] so far. *)
Definition close_requests (s : State) : Z := count is_close_request (trace s).


(** The url a [connect] call ends up using: its argument when that is a
    non-empty string, the stored one otherwise. *)
Definition connect_target (url : option string) (s : State) : string :=
  match url with
  | Some u => if truthy_str url then u else ws_url (self s)
  | None => ws_url (self s)
  end.

(** ** formatting.py: the numeric formats *)

(** [s.rjust(width, fill)], which is how [%] pads a converted value. *)
Definition rjust (fill : ascii) (width : nat) (s : string) : string :=
  string_of_list_ascii (replicate (width - String.length s) fill) +:+ s.

(** The [%d] conversion of an int: [%0wd] when [zero] is set (zeros go
    between the sign and the digits), [%wd] otherwise. *)
Definition fmt_d (zero : bool) (width : nat) (n : Z) : string :=
  if zero then
    if n <? 0 then "-" +:+ rjust "0" (width - 1) (pretty (- n))
    else rjust "0" width (pretty n)
  else rjust " " width (pretty n).

(** ['#' * k]: empty for [k <= 0]. *)
Definition hashes (k : Z) : string :=
  string_of_list_ascii (replicate (Z.to_nat k) "#"%char).

(** [format_nice(data, format='time_position')] for an int [data]
    (milliseconds).  Python 2: [/] and [//] on ints both round down. *)
Definition format_time_position (data : Z) : string :=
  let secs := data / 1000 in
  let minutes := secs / 60 in
  let hours := secs / 3600 in
  if hours <? 1 then
    fmt_d true 2 minutes +:+ "m" +:+ fmt_d true 2 (secs mod 60) +:+ "s"
  else
    fmt_d false 0 hours +:+ "h" +:+ fmt_d true 2 (minutes mod 60) +:+ "m"
      +:+ fmt_d true 2 (secs mod 60) +:+ "s".

(** [format_nice(data, format='volume')] for an int [data]. *)
Definition format_volume (data : Z) : string :=
  fmt_d false 3 data +:+ " [" +:+ rjust " " 5 (hashes (data * 5 / 100)) +:+ "]".

(** Hours, minutes and seconds that make up the whole seconds of [data]
    milliseconds. *)
Definition data_fields_ok (data h m s : Z) : Prop :=
  0 <= h /\ 0 <= m < 60 /\ 0 <= s < 60 /\ data / 1000 = 3600 * h + 60 * m + s.

(** ** The specification's wording of the behaviours that differ *)

(** Handling the transport's close empties the pending-call table. *)
Definition close_empties_table (st : State) : Prop :=
  request_queue (snd (deliver OnClose st)) = [].

(** An error reply to call [id] takes that call out of the table. *)
Definition error_reply_resolves (id : Z) (payload : Json) (st : State) : Prop :=
  first_match id (request_queue (snd (_handle_error id payload st))) = None.

(** A call whose send fails raises to its caller and leaves nothing in
    the table. *)
Definition fails_without_registration (method : string)
    (kwargs : list (string * Json)) (during : list TransportEvent)
    (st : State) : Prop :=
  sendable st = false ->
  (exists ex, fst (_server_request method kwargs during st) = Raises ex) /\
  request_queue (snd (_server_request method kwargs during st)) = request_queue st.

(** A close with retries remaining is followed by a connection attempt. *)
Definition close_reconnects (st : State) : Prop :=
  retries_remaining st = true ->
  attempts (snd (deliver OnClose st)) = attempts st + 1.

(** With a bound of [n], [n] attempts follow a close when all of them
    fail. *)
Definition makes_all_attempts (n : Z) (st : State) : Prop :=
  exists st', all_attempts_fail (S (Z.to_nat n)) st = Some st' /\
              attempts st' = attempts st + n.

(** When every attempt has failed, the connection-status callback has
    been invoked since the close. *)
Definition exhaustion_reported (fuel : nat) (st : State) : Prop :=
  exists st', all_attempts_fail fuel st = Some st' /\
              status_reports st < status_reports st'.

(** Running [m] leaves the retry counter at zero. *)
Definition resets_counter {A} (m : M A) (st : State) : Prop :=
  retry_attemp (self (snd (m st))) = Some 0.

(** ** Properties *)

(** *** Bookkeeping *)

Lemma count_snoc (p : Effect -> bool) (t : list Effect) (e : Effect) :
  count p (t ++ [e]) = count p t + (if p e then 1 else 0).
Proof.
  unfold count. rewrite filter_app, length_app.
  destruct (p e) eqn:Hp.
  - rewrite filter_cons_True by (simpl; exact Hp). simpl. lia.
  - rewrite filter_cons_False by (simpl; congruence). simpl. lia.
Qed.

Ltac unfold_client :=
  unfold deliver, _server_response, parse_json_message,
    _handle_result, _handle_error, _handle_event, call,
    _ws_close, _ws_open, _ws_error, _ws_retry, _ws_connect,
    _connection_changed, is_connected, set_status, disconnect,
    wsa_close, wsa_send, py_sleep, try_except, meanwhile,
    emit, bind, ret, get, modify, raise in *.

Ltac unfold_state :=
  unfold with_self, with_trace, with_queue, with_next_id,
    set_wsa, set_connected, set_retry_attemp, set_ws_url in *.

Ltac counting :=
  unfold attempts, sleeps, status_reports, deliveries, threads_started in *;
  simpl; rewrite ?count_snoc; simpl; try lia.

Lemma first_match_none (id : Z) (q : list RequestMessage) :
  Forall (fun r => id_msg r <> id) q -> first_match id q = None.
Proof.
  induction 1 as [|r q Hr _ IH]; simpl.
  - reflexivity.
  - destruct (Z.eqb_spec (id_msg r) id); [contradiction | exact IH].
Qed.

Lemma first_match_some (id : Z) (q : list RequestMessage) (r : RequestMessage) :
  first_match id q = Some r -> In r q /\ id_msg r = id.
Proof.
  induction q as [|x q IH]; simpl; [discriminate|].
  destruct (Z.eqb_spec (id_msg x) id) as [Heq|Hne].
  - intros [= ->]. split; [left; reflexivity | exact Heq].
  - intros H. destruct (IH H) as [Hin Hid]. split; [right; exact Hin | exact Hid].
Qed.

(** [list.remove] takes out the very request the loop stopped at: no
    earlier item can be equal to it, since it would carry the same id. *)
Lemma first_match_py_remove (id : Z) (q : list RequestMessage) (r : RequestMessage) :
  first_match id q = Some r ->
  exists q1 q2, q = q1 ++ r :: q2 /\ py_remove r q = Some (q1 ++ q2) /\
                Forall (fun x => id_msg x <> id) q1.
Proof.
  induction q as [|x q IH]; simpl; [discriminate|].
  destruct (Z.eqb_spec (id_msg x) id) as [Heq|Hne].
  - intros [= ->]. exists [], q. simpl.
    destruct (decide (r = r)); [|contradiction]. repeat split. constructor.
  - intros H. destruct (IH H) as (q1 & q2 & -> & Hrm & Hall).
    exists (x :: q1), q2. simpl.
    destruct (decide (x = r)) as [->|_].
    + apply first_match_some in H. destruct H as [_ Hid]. contradiction.
    + rewrite Hrm. repeat split. constructor; assumption.
Qed.

Lemma wsa_thread_cons (ev : TransportEvent) (events : list TransportEvent)
    (st : State) :
  wsa_thread (ev :: events) st =
    match deliver ev st with
    | (Returns _, s') => wsa_thread events s'
    | (Raises e, s') => (Raises e, s')
    end.
Proof. reflexivity. Qed.

(** The per-message handler returns normally on every frame and in every
    state: whatever [parse_json_message] raises is caught. *)
Lemma _server_response_returns (message : Frame) (st : State) :
  fst (_server_response message st) = Returns tt.
Proof.
  unfold _server_response, try_except.
  destruct (parse_json_message message st) as [[[]|ex] st'] eqn:Hp; reflexivity.
Qed.

(** *** Unmatched results *)

(** C9: a result frame whose id matches no entry of the pending-call
    table only logs a warning; the table, the instance and every other
    pending call stay as they were, and no callback runs. *)
Theorem unmatched_result_is_dropped (id : Z) (result : Json) (st : State) :
  Forall (fun r => id_msg r <> id) (request_queue st) ->
  _handle_result id result st =
    (Returns tt,
     with_trace (fun t => t ++
       [Log WARNING "Recieved message (id %d) does not match any request"]) st).
Proof.
  intros Hno. unfold _handle_result, bind, get.
  rewrite (first_match_none _ _ Hno). reflexivity.
Qed.

Lemma unmatched_result_is_dropped_witness :
  Forall (fun r => id_msg r <> 9) (request_queue awaiting) /\
  _handle_result 9 "2.0" awaiting =
    (Returns tt,
     with_trace (fun t => t ++
       [Log WARNING "Recieved message (id %d) does not match any request"]) awaiting).
Proof.
  split.
  - repeat constructor. simpl. lia.
  - apply (unmatched_result_is_dropped 9 "2.0" awaiting).
    repeat constructor. simpl. lia.
Defined.

(** *** connect on a connected client *)

(** C10: [connect] on a connected client returns [True] at once and only
    logs a warning: the instance (transport handle, stored url, retry
    counter) and the pending-call table are untouched, whatever url is
    passed, and neither a [WebSocketApp] nor a thread is created. *)
Theorem connect_when_connected_changes_nothing
    (url : option string) (wait_secs : Z) (during : list TransportEvent)
    (st : State) :
  connected (self st) = true ->
  let st' := with_trace (fun t => t ++
    [Log WARNING "[CONNECTION] Already connected to Mopidy Server at %s"]) st in
  connect url wait_secs during st = (Returns (Some true), st') /\
  self st' = self st /\
  request_queue st' = request_queue st /\
  attempts st' = attempts st /\
  threads_started st' = threads_started st.
Proof.
  intros Hc st'. subst st'. split.
  - unfold connect, is_connected, bind, get. rewrite Hc. reflexivity.
  - repeat split; counting.
Qed.

Lemma connect_when_connected_changes_nothing_witness :
  connected (self (online 2)) = true /\
  fst (connect (Some "ws://elsewhere:6680/mopidy/ws") 5 [OnClose] (online 2))
    = Returns (Some true) /\
  self (snd (connect (Some "ws://elsewhere:6680/mopidy/ws") 5 [OnClose] (online 2)))
    = self (online 2).
Proof.
  split; [reflexivity|].
  destruct (connect_when_connected_changes_nothing
              (Some "ws://elsewhere:6680/mopidy/ws") 5 [OnClose] (online 2)
              eq_refl) as (Heq & Hself & _).
  rewrite Heq. split; [reflexivity | exact Hself].
Defined.

(** *** A call without a usable transport *)

(** C3, as the code has it: when the send fails at once, the facade logs
    the exception and returns [None] to its caller, nothing is raised,
    and the request appended before the send stays in the table. *)
Theorem send_failure_returns_none (method : string)
    (kwargs : list (string * Json)) (during : list TransportEvent)
    (st : State) :
  sendable st = false ->
  exists ex,
    _server_request method kwargs during st =
      (Returns None,
       {| request_queue := request_queue st ++
            [{| id_msg := next_id st; req_method := method; req_params := kwargs |}];
          self := self st;
          trace := trace st ++ [LogException ex];
          next_id := Z.succ (next_id st) |}).
Proof.
  unfold sendable. intros Hs.
  unfold _server_request, new_request, wait_for_result.
  unfold_client. unfold_state. simpl.
  destruct (wsa (self st)) as [app|] eqn:Hw; simpl.
  - destruct (app_status app); try discriminate;
      (eexists; reflexivity).
  - eexists; reflexivity.
Qed.

Lemma send_failure_returns_none_witness :
  sendable (offline 2) = false /\
  exists ex,
    _server_request "core.get_version" [] [] (offline 2) =
      (Returns None,
       {| request_queue := request_queue (offline 2) ++
            [{| id_msg := next_id (offline 2); req_method := "core.get_version";
                req_params := [] |}];
          self := self (offline 2);
          trace := trace (offline 2) ++ [LogException ex];
          next_id := Z.succ (next_id (offline 2)) |}).
Proof.
  split; [reflexivity|].
  exact (send_failure_returns_none "core.get_version" [] [] (offline 2) eq_refl).
Defined.

(** C3, as worded, fails on a client that never connected: the call
    returns instead of raising, and its request is left in the table. *)
Lemma send_failure_leaves_registration :
  ~ fails_without_registration "core.get_version" [] [] (offline 2) /\
  fst (_server_request "core.get_version" [] [] (offline 2)) = Returns None /\
  request_queue (snd (_server_request "core.get_version" [] [] (offline 2)))
    = [get_version 1].
Proof.
  split; [|split; vm_compute; reflexivity].
  intros H. destruct (H eq_refl) as [[ex Hex] _].
  vm_compute in Hex. discriminate Hex.
Qed.

(** *** Undecodable frames *)

(** C8: a frame that fails to decode is logged and dropped.  The
    per-message handler returns normally, leaving everything but the log
    as it was; the receive loop goes on with the frames that follow; and
    no sequence of frames makes the handler raise into the loop. *)
Theorem undecodable_frame_is_dropped (message : Frame) (ex : Exn)
    (rest : list TransportEvent) (st : State) :
  decode message = inl ex ->
  _server_response message st =
    (Returns tt, with_trace (fun t => t ++ [LogException ex]) st) /\
  wsa_thread (OnMessage message :: rest) st =
    wsa_thread rest (with_trace (fun t => t ++ [LogException ex]) st) /\
  forall (frames : list Frame) (s : State),
    fst (wsa_thread (map OnMessage frames) s) = Returns tt.
Proof.
  intros Hd.
  assert (Hone : _server_response message st =
    (Returns tt, with_trace (fun t => t ++ [LogException ex]) st)).
  { unfold _server_response, parse_json_message, try_except, raise.
    rewrite Hd. reflexivity. }
  split; [exact Hone|]. split.
  - unfold wsa_thread. simpl. unfold bind at 1. simpl. rewrite Hone. reflexivity.
  - induction frames as [|f frames IH]; intros s; [reflexivity|].
    unfold wsa_thread in *. simpl. unfold bind at 1. simpl.
    pose proof (_server_response_returns f s) as Hr.
    destruct (_server_response f s) as [[[]|e] s']; simpl in Hr.
    + apply IH.
    + discriminate Hr.
Qed.

Lemma undecodable_frame_is_dropped_witness :
  decode (NotJson "<html>") = inl MalformedFrame /\
  wsa_thread [OnMessage (NotJson "<html>"); OnMessage (result_reply 7 "2.0")] awaiting =
    wsa_thread [OnMessage (result_reply 7 "2.0")]
      (with_trace (fun t => t ++ [LogException MalformedFrame]) awaiting).
Proof.
  split; [reflexivity|].
  exact (proj1 (proj2 (undecodable_frame_is_dropped (NotJson "<html>") MalformedFrame
                         [OnMessage (result_reply 7 "2.0")] awaiting eq_refl))).
Defined.

(** *** The pending-call table and the connection *)

Ltac open_state st :=
  destruct st as [?q [?eh ?xh ?ch ?rmax ?rsecs ?att ?url ?conn ?w] ?t ?n];
  simpl in *.

Ltac cases := repeat (case_match; simplify_eq/=; try done).

Lemma connection_event_keeps_table (ev : TransportEvent) (st : State) :
  connection_event ev ->
  request_queue (snd (deliver ev st)) = request_queue st /\
  deliveries (snd (deliver ev st)) = deliveries st.
Proof.
  intros Hev. open_state st.
  destruct ev; simpl in Hev; try contradiction;
    unfold_client; unfold_state; simpl; cases; split; try reflexivity; counting.
Qed.

(** C1, as the code has it: handling a close, and any sequence of opens,
    closes and transport errors around it, resolves no pending call and
    leaves the pending-call table as it was; calls pending before the
    close are still pending after a reconnect. *)
Theorem close_leaves_pending_calls (events : list TransportEvent) (st : State) :
  Forall connection_event events ->
  request_queue (snd (wsa_thread events st)) = request_queue st /\
  deliveries (snd (wsa_thread events st)) = deliveries st.
Proof.
  intros Hall. revert st.
  induction Hall as [|ev events Hev _ IH]; intros st; [split; reflexivity|].
  rewrite wsa_thread_cons.
  destruct (connection_event_keeps_table ev st Hev) as [Hq Hd].
  destruct (deliver ev st) as [[[]|e] s']; simpl in *.
  - destruct (IH s') as [Hq' Hd']. split; congruence.
  - split; assumption.
Qed.

Lemma close_leaves_pending_calls_witness :
  Forall connection_event [OnClose; OnOpen] /\
  request_queue (snd (wsa_thread [OnClose; OnOpen] awaiting)) = [get_version 7].
Proof.
  split.
  - repeat constructor.
  - exact (proj1 (close_leaves_pending_calls [OnClose; OnOpen] awaiting
                    ltac:(repeat constructor))).
Defined.

(** C1, as worded, fails with call 7 in flight: after the close is
    handled the table still holds it, and nothing was delivered to its
    caller. *)
Lemma close_does_not_empty_table :
  ~ close_empties_table awaiting /\
  request_queue (snd (deliver OnClose awaiting)) = [get_version 7] /\
  deliveries (snd (deliver OnClose awaiting)) = 0.
Proof.
  split; [|split; vm_compute; reflexivity].
  unfold close_empties_table. vm_compute. discriminate.
Qed.

(** *** Error replies *)

(** C2, as the code has it: an error reply leaves the pending-call table
    and the instance as they were and delivers nothing to the waiting
    caller; when the client was given an error handler, that handler is
    called once with the error payload. *)
Theorem error_reply_goes_to_error_handler (id : Z) (error : Json) (st : State) :
  request_queue (snd (_handle_error id error st)) = request_queue st /\
  self (snd (_handle_error id error st)) = self st /\
  deliveries (snd (_handle_error id error st)) = deliveries st /\
  forall f, error_handler (self st) = Some f ->
    trace (snd (_handle_error id error st)) = trace st ++ [Invoke (fn_name f) [error]].
Proof.
  open_state st. unfold_client. unfold_state. simpl.
  destruct xh as [[name raises]|]; simpl.
  - destruct raises; simpl; repeat split; try counting;
      intros f [= <-]; reflexivity.
  - repeat split. intros f Hf. discriminate Hf.
Qed.

Lemma error_reply_goes_to_error_handler_witness :
  error_handler (self (with_self (fun c =>
     {| event_handler := event_handler c; error_handler := Some on_rpc_error;
        connection_handler := connection_handler c;
        retry_max := retry_max c; retry_secs := retry_secs c;
        retry_attemp := retry_attemp c; ws_url := ws_url c;
        connected := connected c; wsa := wsa c |}) awaiting)) = Some on_rpc_error /\
  request_queue (snd (_handle_error 7 "boom" (with_self (fun c =>
     {| event_handler := event_handler c; error_handler := Some on_rpc_error;
        connection_handler := connection_handler c;
        retry_max := retry_max c; retry_secs := retry_secs c;
        retry_attemp := retry_attemp c; ws_url := ws_url c;
        connected := connected c; wsa := wsa c |}) awaiting))) = [get_version 7].
Proof.
  split; [reflexivity|].
  exact (proj1 (error_reply_goes_to_error_handler 7 "boom" _)).
Defined.

(** C2, as worded, fails for call 7 on a client without error handler:
    after the peer's error reply the call is still in the table, and the
    handling left no trace at all. *)
Lemma error_reply_leaves_call_pending :
  ~ error_reply_resolves 7 "boom" awaiting /\
  _handle_error 7 "boom" awaiting = (Returns tt, awaiting).
Proof.
  split; [|vm_compute; reflexivity].
  unfold error_reply_resolves. vm_compute. discriminate.
Qed.

(** Seen from the caller: the call answered with a result returns it and
    leaves the table empty; the call answered with an error waits until
    it gives up, returns [None], and stays in the table. *)
Example call_answered_with_result :
  fst (_server_request "core.get_version" [] [OnMessage (result_reply 1 "2.0")]
         (online 2)) = Returns (Some "2.0") /\
  request_queue (snd (_server_request "core.get_version" []
                        [OnMessage (result_reply 1 "2.0")] (online 2))) = [].
Proof. split; vm_compute; reflexivity. Qed.

Example call_answered_with_error :
  fst (_server_request "core.get_version" [] [OnMessage (error_reply 1 "boom")]
         (online 2)) = Returns None /\
  request_queue (snd (_server_request "core.get_version" []
                        [OnMessage (error_reply 1 "boom")] (online 2)))
    = [get_version 1].
Proof. split; vm_compute; reflexivity. Qed.

(** *** Reconnecting *)

Lemma count_app (p : Effect -> bool) (t l : list Effect) :
  count p (t ++ l) = count p t + count p l.
Proof. unfold count. rewrite filter_app, length_app. lia. Qed.

Lemma count_nil (p : Effect -> bool) : count p [] = 0.
Proof. reflexivity. Qed.

Lemma count_cons (p : Effect -> bool) (e : Effect) (t : list Effect) :
  count p (e :: t) = (if p e then 1 else 0) + count p t.
Proof.
  change (e :: t) with ([e] ++ t). rewrite count_app.
  change [e] with ([] ++ [e]). rewrite count_snoc. reflexivity.
Qed.

Lemma count_rounds (p : Effect -> bool) (n : nat) (l : list Effect) :
  count p (concat (replicate n l)) = Z.of_nat n * count p l.
Proof.
  induction n as [|n IH]; [reflexivity|].
  cbn [replicate concat]. rewrite count_app, IH. lia.
Qed.

(** The notice of a lost connection holds no attempt, no delay, no
    thread and no delivery, and at most one report. *)
Lemma loss_notice_counts (c : Client) :
  count is_attempt (loss_notice c) = 0 /\
  count is_sleep (loss_notice c) = 0 /\
  count is_thread_start (loss_notice c) = 0 /\
  count is_callback (loss_notice c) = 0 /\
  count is_status_report (loss_notice c) =
    (if connected c
     then match connection_handler c with Some _ => 1 | None => 0 end
     else 0).
Proof.
  unfold loss_notice. destruct (connected c), (connection_handler c);
    cbn [app]; rewrite ?count_cons; cbn; repeat split; reflexivity.
Qed.

Lemma retry_round_counts (c : Client) :
  count is_attempt (retry_round c) = 1 /\
  count is_sleep (retry_round c) = 1 /\
  count is_thread_start (retry_round c) = 1 /\
  count is_callback (retry_round c) = 0 /\
  count is_status_report (retry_round c) = 0.
Proof.
  unfold retry_round. rewrite !count_cons. cbn. repeat split; reflexivity.
Qed.

(** A close while the retry policy allows an attempt and the delay is
    not negative: the whole outcome. *)
Lemma close_then_retry (st : State) (a : Z) :
  retry_attemp (self st) = Some a ->
  retries_remaining st = true ->
  0 <= retry_secs (self st) ->
  deliver OnClose st =
    (Returns tt,
     {| request_queue := request_queue st;
        self := reconnecting_client (self st) (next_attemp (self st) a);
        trace := trace st ++ loss_notice (self st) ++ retry_round (self st);
        next_id := next_id st |}).
Proof.
  intros Hatt Hleft Hsecs. unfold retries_remaining in Hleft.
  rewrite Hatt in Hleft. open_state st. subst att.
  assert (Hs : (rsecs <? 0) = false) by (apply Z.ltb_ge; lia).
  unfold loss_notice, retry_round, retry_message, next_attemp,
    reconnecting_client.
  unfold_client. unfold_state. cbn [self retry_max retry_attemp connected
    retry_secs ws_url connection_handler request_queue trace next_id
    event_handler error_handler].
  destruct (rmax <? 0) eqn:Hneg; cbn [orb] in Hleft.
  - destruct conn, ch, w; cbn; rewrite ?Hneg, ?Hs; cbn;
      rewrite <- ?app_assoc; reflexivity.
  - destruct conn, ch, w; cbn; rewrite ?Hneg, ?Hleft, ?Hs; cbn;
      rewrite <- ?app_assoc; reflexivity.
Qed.

(** A close with the bound reached: a warning, and no attempt. *)
Lemma close_when_exhausted (st : State) (a : Z) :
  retry_attemp (self st) = Some a ->
  0 <= retry_max (self st) ->
  retry_max (self st) <= a ->
  deliver OnClose st =
    (Returns tt,
     {| request_queue := request_queue st;
        self := stopped_client (self st);
        trace := trace st ++ loss_notice (self st) ++ [exhausted_warning];
        next_id := next_id st |}).
Proof.
  intros Hatt Hpos Hge. open_state st. subst att.
  assert (Hneg : (rmax <? 0) = false) by (apply Z.ltb_ge; lia).
  assert (Hlt : (a <? rmax) = false) by (apply Z.ltb_ge; lia).
  unfold loss_notice, stopped_client, exhausted_warning.
  unfold_client. unfold_state. cbn [self retry_max retry_attemp connected
    retry_secs ws_url connection_handler request_queue trace next_id
    event_handler error_handler].
  destruct conn, ch, w; cbn; rewrite ?Hneg, ?Hlt; cbn;
    rewrite <- ?app_assoc; reflexivity.
Qed.

(** A close with retrying off: no attempt either. *)
Lemma close_without_counter (st : State) :
  retry_attemp (self st) = None ->
  deliver OnClose st =
    (Returns tt,
     {| request_queue := request_queue st;
        self := stopped_client (self st);
        trace := trace st ++ loss_notice (self st);
        next_id := next_id st |}).
Proof.
  intros Hatt. open_state st. subst att.
  unfold loss_notice, stopped_client.
  unfold_client. unfold_state. cbn.
  destruct conn, ch, w; cbn; rewrite <- ?app_assoc, ?app_nil_r; reflexivity.
Qed.

Lemma _server_response_keeps_connection (message : Frame) (st : State) :
  self (snd (_server_response message st)) = self st /\
  attempts (snd (_server_response message st)) = attempts st /\
  threads_started (snd (_server_response message st)) = threads_started st.
Proof.
  open_state st. unfold _server_response, parse_json_message.
  destruct (decode message) as [ex|[id v|id e|name d]];
    unfold_client; unfold_state; simpl; cases; repeat split; counting.
Qed.

(** Once the retry counter is [None], no transport event brings it back
    or starts a connection attempt. *)
Lemma no_attempt_without_counter (ev : TransportEvent) (st : State) :
  retry_attemp (self st) = None ->
  retry_attemp (self (snd (deliver ev st))) = None /\
  attempts (snd (deliver ev st)) = attempts st /\
  threads_started (snd (deliver ev st)) = threads_started st.
Proof.
  intros Hnone. destruct ev.
  - open_state st; subst; unfold_client; unfold_state; simpl; cases;
      repeat split; counting.
  - rewrite (close_without_counter st Hnone). cbn [snd self].
    unfold stopped_client, attempts, threads_started. cbn [retry_attemp trace].
    rewrite !count_app.
    destruct (loss_notice_counts (self st)) as (Ha & _ & Ht & _).
    rewrite Ha, Ht. repeat split; [exact Hnone | lia | lia].
  - cbn. repeat split. exact Hnone.
  - simpl. destruct (_server_response_keeps_connection message st)
      as (Hs & Ha & Ht).
    rewrite Hs. repeat split; assumption.
Qed.

Lemma disconnect_clears_counter (st : State) :
  retry_attemp (self (snd (disconnect st))) = None /\
  attempts (snd (disconnect st)) = attempts st /\
  threads_started (snd (disconnect st)) = threads_started st.
Proof.
  open_state st. unfold_client. unfold_state. simpl. cases;
    repeat split; counting.
Qed.

(** C5, as the code has it: after [disconnect()], whatever the
    transport reports next (the close it asked for, or anything else)
    starts no connection attempt and no thread; an unexpected close
    while the retry policy still allows an attempt and the retry delay is
    not negative makes exactly one: after the delay, a new [WebSocketApp]
    for the stored url becomes the client's transport and its thread is
    started. *)
Theorem reconnect_only_after_unexpected_close :
  (forall (st : State) (events : list TransportEvent),
     attempts (snd (wsa_thread events (snd (disconnect st)))) = attempts st /\
     threads_started (snd (wsa_thread events (snd (disconnect st))))
       = threads_started st) /\
  (forall st : State,
     retries_remaining st = true ->
     0 <= retry_secs (self st) ->
     fst (deliver OnClose st) = Returns tt /\
     trace (snd (deliver OnClose st)) =
       trace st ++ loss_notice (self st) ++ retry_round (self st) /\
     wsa (self (snd (deliver OnClose st))) =
       Some {| app_url := ws_url (self st); app_status := Connecting |} /\
     attempts (snd (deliver OnClose st)) = attempts st + 1 /\
     threads_started (snd (deliver OnClose st)) = threads_started st + 1).
Proof.
  split.
  - intros st events.
    destruct (disconnect_clears_counter st) as (Hnone & Hatt & Hthr).
    rewrite <- Hatt, <- Hthr. clear Hatt Hthr.
    generalize dependent (snd (disconnect st)). intros s Hnone.
    revert s Hnone. induction events as [|ev events IH]; intros s Hnone;
      [split; reflexivity|].
    rewrite wsa_thread_cons.
    destruct (no_attempt_without_counter ev s Hnone) as (Hnone' & Hatt' & Hthr').
    destruct (deliver ev s) as [[[]|e] s']; simpl in *.
    + destruct (IH s' Hnone') as [Ha Ht]. split; congruence.
    + split; assumption.
  - intros st Hleft Hsecs.
    assert (Hsome : exists a, retry_attemp (self st) = Some a).
    { unfold retries_remaining in Hleft.
      destruct (retry_attemp (self st)) as [a|]; [exists a; reflexivity|].
      discriminate Hleft. }
    destruct Hsome as [a Hatt].
    rewrite (close_then_retry st a Hatt Hleft Hsecs). cbn [fst snd trace self].
    split; [reflexivity|]. split; [reflexivity|]. split; [reflexivity|].
    unfold attempts, threads_started. cbn [trace]. rewrite !count_app.
    destruct (loss_notice_counts (self st)) as (Ha & _ & Ht & _).
    destruct (retry_round_counts (self st)) as (Ra & _ & Rt & _).
    rewrite Ha, Ht, Ra, Rt. split; lia.
Qed.

Lemma reconnect_only_after_unexpected_close_witness :
  retries_remaining (online 2) = true /\
  0 <= retry_secs (self (online 2)) /\
  attempts (snd (deliver OnClose (online 2))) = attempts (online 2) + 1 /\
  threads_started (snd (deliver OnClose (online 2)))
    = threads_started (online 2) + 1 /\
  attempts (snd (wsa_thread [OnClose] (snd (disconnect (online 2)))))
    = attempts (online 2).
Proof.
  assert (Hsecs : 0 <= retry_secs (self (online 2))) by (cbn; lia).
  split; [reflexivity|]. split; [exact Hsecs|].
  destruct (proj2 reconnect_only_after_unexpected_close (online 2) eq_refl Hsecs)
    as (_ & _ & _ & Ha & Ht).
  split; [exact Ha|]. split; [exact Ht|].
  exact (proj1 (proj1 reconnect_only_after_unexpected_close (online 2) [OnClose])).
Defined.

(** C5, as worded, fails for a negative retry delay: on a connected
    client with [retry_max = 2] and [retry_secs = -5] the close finds
    retries remaining, but [time.sleep] refuses the delay and the close
    handler ends there, with no new [WebSocketApp] and no thread. *)
Lemma negative_delay_blocks_reconnect :
  ~ close_reconnects (online_with 2 (-5)) /\
  retries_remaining (online_with 2 (-5)) = true /\
  fst (deliver OnClose (online_with 2 (-5))) = Raises IOError /\
  attempts (snd (deliver OnClose (online_with 2 (-5))))
    = attempts (online_with 2 (-5)) /\
  threads_started (snd (deliver OnClose (online_with 2 (-5))))
    = threads_started (online_with 2 (-5)).
Proof.
  split; [|repeat split; vm_compute; reflexivity].
  intros H. specialize (H eq_refl). vm_compute in H. discriminate H.
Qed.

(** *** Bounded retries *)

Lemma retries_until_exhausted (k : nat) : forall (st : State) (a : Z),
  retry_attemp (self st) = Some a ->
  0 <= a ->
  0 <= retry_secs (self st) ->
  retry_max (self st) = a + Z.of_nat k ->
  all_attempts_fail (S k) st =
    Some {| request_queue := request_queue st;
            self := stopped_client
                      (match k with
                       | O => self st
                       | S _ => reconnecting_client (self st) (retry_max (self st))
                       end);
            trace := trace st ++ loss_notice (self st) ++
                     concat (replicate k (retry_round (self st))) ++
                     [exhausted_warning];
            next_id := next_id st |}.
Proof.
  induction k as [|k IH]; intros st a Hatt Ha Hsecs Hmax.
  - cbn [all_attempts_fail].
    rewrite (close_when_exhausted st a Hatt) by lia.
    cbn [replicate concat app].
    assert (Hidle : attempting
              {| request_queue := request_queue st;
                 self := stopped_client (self st);
                 trace := trace st ++ loss_notice (self st) ++ [exhausted_warning];
                 next_id := next_id st |} = false).
    { unfold attempting, stopped_client. cbn.
      destruct (wsa (self st)); reflexivity. }
    rewrite Hidle. reflexivity.
  - assert (Hleft : retries_remaining st = true).
    { unfold retries_remaining. rewrite Hatt.
      apply orb_true_iff. right. apply Z.ltb_lt. lia. }
    assert (Hnext : next_attemp (self st) a = a + 1).
    { unfold next_attemp.
      assert (Hneg : (retry_max (self st) <? 0) = false) by (apply Z.ltb_ge; lia).
      rewrite Hneg. reflexivity. }
    change (all_attempts_fail (S (S k)) st) with
      (match deliver OnClose st with
       | (Returns _, s') =>
           if attempting s' then all_attempts_fail (S k) s' else Some s'
       | (Raises _, _) => None
       end).
    rewrite (close_then_retry st a Hatt Hleft Hsecs), Hnext.
    set (s1 := {| request_queue := request_queue st;
                  self := reconnecting_client (self st) (a + 1);
                  trace := trace st ++ loss_notice (self st) ++ retry_round (self st);
                  next_id := next_id st |}).
    assert (Hbusy : attempting s1 = true) by reflexivity.
    rewrite Hbusy.
    rewrite (IH s1 (a + 1)); [| reflexivity | lia | exact Hsecs | subst s1; cbn; lia].
    subst s1. cbn [request_queue self trace next_id].
    f_equal. f_equal.
    + destruct k; unfold stopped_client, reconnecting_client; cbn;
        rewrite ?Hmax; repeat f_equal; lia.
    + unfold loss_notice at 2. cbn [connected reconnecting_client].
      cbn [replicate concat app].
      change (retry_round (reconnecting_client (self st) (a + 1)))
        with (retry_round (self st)).
      rewrite <- !app_assoc. reflexivity.
Qed.

(** C6, as the code has it: with [retry_max = n >= 0], a retry delay
    that is not negative, the counter as [connect] leaves it, and every
    attempt failing, a close is followed by exactly [n] reconnect
    attempts and then by none.  Each attempt is the delay, a new
    [WebSocketApp] for the stored url and its thread; after the last one
    the exhaustion is logged as a warning, and that is all that happens.
    Nothing is raised and no pending call is touched; the
    connection-status callback is invoked for the loss of an open
    connection only. *)
Theorem bounded_retries_then_stop (n : Z) (st : State) :
  0 <= n ->
  0 <= retry_secs (self st) ->
  retry_max (self st) = n ->
  retry_attemp (self st) = (if truthy_int n then Some 0 else None) ->
  exists st',
    all_attempts_fail (S (Z.to_nat n)) st = Some st' /\
    trace st' = trace st ++ loss_notice (self st) ++
                concat (replicate (Z.to_nat n) (retry_round (self st))) ++
                (if 0 <? n then [exhausted_warning] else []) /\
    (0 < n -> wsa (self st') =
                Some {| app_url := ws_url (self st); app_status := Closed |}) /\
    attempting st' = false /\
    retries_remaining st' = false /\
    attempts st' = attempts st + n /\
    threads_started st' = threads_started st + n /\
    sleeps st' = sleeps st + n /\
    status_reports st' = status_reports st +
      (if connected (self st)
       then match connection_handler (self st) with Some _ => 1 | None => 0 end
       else 0) /\
    request_queue st' = request_queue st /\
    deliveries st' = deliveries st /\
    (0 < n -> last (trace st') =
       Some (Log WARNING "[CONNECTION] Reached maximum of attemps to reconnect (%d)")).
Proof.
  intros Hn Hsecs Hmax Hatt. unfold truthy_int in Hatt.
  destruct (loss_notice_counts (self st)) as (La & Ls & Lt & Lc & Lr).
  destruct (retry_round_counts (self st)) as (Ra & Rs & Rt & Rc & Rr).
  destruct (Z.eqb_spec n 0) as [->|Hnz]; cbn [negb] in Hatt.
  - eexists. split.
    { cbn [Z.to_nat all_attempts_fail].
      rewrite (close_without_counter st Hatt).
      assert (Hidle : attempting
                {| request_queue := request_queue st;
                   self := stopped_client (self st);
                   trace := trace st ++ loss_notice (self st);
                   next_id := next_id st |} = false).
      { unfold attempting, stopped_client. cbn.
        destruct (wsa (self st)); reflexivity. }
      rewrite Hidle. reflexivity. }
    cbn [trace self request_queue Z.to_nat replicate concat app Z.ltb Z.compare].
    rewrite app_nil_r.
    split; [reflexivity|]. split; [lia|].
    split; [unfold attempting, stopped_client; cbn;
            destruct (wsa (self st)); reflexivity|].
    split; [unfold retries_remaining, stopped_client; cbn; rewrite Hatt;
            reflexivity|].
    unfold attempts, threads_started, sleeps, status_reports, deliveries.
    cbn [trace]. rewrite !count_app, La, Ls, Lt, Lc, Lr.
    repeat split; try lia.
  - assert (Hpos : 0 < n) by lia.
    assert (Hk : exists k, Z.to_nat n = S k).
    { destruct (Z.to_nat n) eqn:Hz; [lia | eexists; reflexivity]. }
    destruct Hk as [k Hk].
    eexists. split.
    { apply (retries_until_exhausted (Z.to_nat n) st 0 Hatt); lia. }
    cbn [trace self request_queue].
    assert (Hltb : (0 <? n) = true) by (apply Z.ltb_lt; lia).
    rewrite Hltb.
    split; [reflexivity|].
    split; [intros _; rewrite Hk; reflexivity|].
    split; [rewrite Hk; reflexivity|].
    split.
    { rewrite Hk. unfold retries_remaining, stopped_client, reconnecting_client.
      cbn. rewrite Hmax.
      assert (H1 : (n <? 0) = false) by (apply Z.ltb_ge; lia).
      assert (H2 : (n <? n) = false) by (apply Z.ltb_irrefl).
      rewrite H1, H2. reflexivity. }
    unfold attempts, threads_started, sleeps, status_reports, deliveries.
    cbn [trace]. rewrite !count_app, !count_rounds, La, Ls, Lt, Lc, Lr,
      Ra, Rs, Rt, Rc, Rr. rewrite !count_cons, !count_nil. cbn.
    rewrite Z2Nat.id by lia.
    repeat split; try lia.
    intros _. rewrite !app_assoc. apply last_snoc.
Qed.

Lemma bounded_retries_then_stop_witness :
  0 <= 2 /\
  0 <= retry_secs (self (connecting 2)) /\
  retry_max (self (connecting 2)) = 2 /\
  retry_attemp (self (connecting 2)) = (if truthy_int 2 then Some 0 else None) /\
  exists st',
    all_attempts_fail 3 (connecting 2) = Some st' /\
    attempts st' = attempts (connecting 2) + 2 /\
    threads_started st' = threads_started (connecting 2) + 2 /\
    status_reports st' = status_reports (connecting 2).
Proof.
  assert (Hsecs : 0 <= retry_secs (self (connecting 2))) by (cbn; lia).
  split; [lia|]. split; [exact Hsecs|]. split; [reflexivity|].
  split; [reflexivity|].
  destruct (bounded_retries_then_stop 2 (connecting 2) ltac:(lia) Hsecs
              eq_refl eq_refl)
    as (st' & Hrun & _ & _ & _ & _ & Hc & Ht & _ & Hr & _).
  exists st'. split; [exact Hrun|]. split; [exact Hc|]. split; [exact Ht|].
  rewrite Hr. apply Z.add_0_r.
Defined.

(** C6, as worded, fails twice.  For [retry_max = 2] on a first
    connection that never opens, both retries are made and fail, and the
    connection-status callback is not invoked at all.  And with a
    negative retry delay ([retry_secs = -5]) the first close already ends
    in [time.sleep] refusing the delay: none of the two attempts is
    made. *)
Lemma exhaustion_is_not_reported :
  ~ exhaustion_reported 3 (connecting 2) /\
  ~ makes_all_attempts 2 (online_with 2 (-5)).
Proof.
  split.
  - intros (st' & Hrun & Hlt). vm_compute in Hrun.
    injection Hrun as <-. vm_compute in Hlt. discriminate Hlt.
  - intros (st' & Hrun & _). vm_compute in Hrun. discriminate Hrun.
Qed.

(** *** The retry counter *)

(** C7, as the code has it: [connect] on a client that is not connected
    starts the retry counter afresh, at zero when [retry_max] is not zero
    and at [None] (no retries) when it is, whatever the counter was. *)
Theorem connect_resets_retry_counter (url : option string) (wait_secs : Z)
    (st : State) :
  connected (self st) = false ->
  retry_attemp (self (snd (connect url wait_secs [] st))) =
    (if truthy_int (retry_max (self st)) then Some 0 else None).
Proof.
  intros Hc. open_state st. subst conn.
  unfold connect, wsa_thread, for_each. unfold_client. unfold_state.
  cbn [self connected retry_max].
  destruct url as [u|]; cbn; cases.
Qed.

Lemma connect_resets_retry_counter_witness :
  connected (self (given_up 2)) = false /\
  retry_attemp (self (given_up 2)) = Some 2 /\
  retry_attemp (self (snd (connect None 5 [] (given_up 2)))) = Some 0.
Proof.
  split; [reflexivity|]. split; [reflexivity|].
  exact (connect_resets_retry_counter None 5 (given_up 2) eq_refl).
Defined.

(** C7, as worded, fails twice: the open that follows a first retry
    leaves the counter at one, and [connect] with [retry_max = 0] leaves
    it at [None]. *)
Lemma counter_is_not_always_reset :
  ~ resets_counter (deliver OnOpen) (snd (deliver OnClose (online 2))) /\
  ~ resets_counter (connect None 0 []) (offline 0).
Proof.
  split; unfold resets_counter; vm_compute; discriminate.
Qed.

(** *** Two instances *)

(** C4 fails on the code: the list is the class's.  A call registered
    through the first of two clients shows up in the second one's
    [request_queue], and a result handled by the second takes the first
    one's pending call away. *)
Theorem request_queue_is_shared_between_instances :
  let a := fst (fst two_clients) in
  let b := snd (fst two_clients) in
  let w := snd two_clients in
  a <> b /\
  pending_of a w = Some [] /\
  pending_of b w = Some [] /\
  exists w',
    on_instance a (_server_request "core.get_version" [] []) w
      = Some (Returns None, w') /\
    pending_of b w' = Some [get_version 1] /\
    exists w'',
      on_instance b (_handle_result 1 "2.0") w' = Some (Returns tt, w'') /\
      pending_of a w'' = Some [].
Proof.
  cbv zeta. split; [vm_compute; discriminate|].
  split; [vm_compute; reflexivity|]. split; [vm_compute; reflexivity|].
  eexists. split; [vm_compute; reflexivity|].
  split; [vm_compute; reflexivity|].
  eexists. split; vm_compute; reflexivity.
Qed.

(** ** Further properties of the client *)

(** *** Results that match *)

Lemma first_match_exists (id : Z) (q : list RequestMessage) :
  Exists (fun r => id_msg r = id) q -> exists r, first_match id q = Some r.
Proof.
  induction 1 as [r q Hr|r q _ IH]; simpl.
  - exists r. destruct (Z.eqb_spec (id_msg r) id); [reflexivity|contradiction].
  - destruct (id_msg r =? id); [exists r; reflexivity | exact IH].
Qed.

Lemma unmatched_result_is_dropped_general (id : Z) (result : Json) (st : State) :
  Forall (fun r => id_msg r <> id) (request_queue st) ->
  _handle_result id result st =
    (Returns tt,
     with_trace (fun t => t ++
       [Log WARNING "Recieved message (id %d) does not match any request"]) st).
Proof.
  intros Hno. unfold _handle_result, bind, get.
  rewrite (first_match_none _ _ Hno). reflexivity.
Qed.

(** X1: when some pending request carries the id of a result, the first
    such request in the table, and only it, gets the result through its
    callback and is taken out; the requests before and after it keep
    their places, and [list.remove] never fails. *)
Theorem matched_result_resolves_first (id : Z) (result : Json) (st : State) :
  Exists (fun r => id_msg r = id) (request_queue st) ->
  exists q1 r q2,
    request_queue st = q1 ++ r :: q2 /\
    Forall (fun x => id_msg x <> id) q1 /\
    id_msg r = id /\
    _handle_result id result st =
      (Returns tt,
       with_queue (fun _ => q1 ++ q2)
         (with_trace (fun t => t ++ [Callback r result]) st)).
Proof.
  intros Hex. destruct (first_match_exists id _ Hex) as [r Hr].
  destruct (first_match_py_remove id _ r Hr) as (q1 & q2 & Hq & Hrm & Hall).
  exists q1, r, q2. split; [exact Hq|]. split; [exact Hall|].
  split; [apply (first_match_some id _ r Hr)|].
  unfold _handle_result, bind, get, emit, modify. cbn.
  rewrite Hr. cbn. rewrite Hrm. reflexivity.
Qed.

Lemma matched_result_resolves_first_witness :
  Exists (fun r => id_msg r = 7) (request_queue awaiting) /\
  _handle_result 7 "2.0" awaiting =
    (Returns tt,
     with_queue (fun _ => [])
       (with_trace (fun t => t ++ [Callback (get_version 7) "2.0"]) awaiting)).
Proof.
  split; [left; reflexivity|].
  destruct (matched_result_resolves_first 7 "2.0" awaiting
              ltac:(left; reflexivity)) as (q1 & r & q2 & Hq & _ & _ & Hrun).
  rewrite Hrun. clear Hrun.
  destruct q1 as [|x q1]; [|destruct q1; discriminate Hq].
  injection Hq as <- <-. reflexivity.
Defined.

Lemma no_match_after_removal (id : Z) (q1 q2 : list RequestMessage)
    (r : RequestMessage) :
  NoDup (map id_msg (q1 ++ r :: q2)) -> id_msg r = id ->
  Forall (fun x => id_msg x <> id) (q1 ++ q2).
Proof.
  intros Hnd Hid. rewrite map_app in Hnd. cbn in Hnd.
  apply NoDup_app in Hnd. destruct Hnd as (_ & Hdisj & Hnd2).
  apply NoDup_cons in Hnd2. destruct Hnd2 as [Hnotin _].
  apply Forall_app. split; apply Forall_forall; intros x Hx Heq.
  - apply (Hdisj (id_msg x)).
    + apply list_elem_of_fmap. exists x. split; [reflexivity | exact Hx].
    + rewrite Heq, <- Hid. left.
  - apply Hnotin. rewrite Hid, <- Heq.
    apply list_elem_of_fmap. exists x. split; [reflexivity | exact Hx].
Qed.

(** X2: with distinct ids in the table, a result is delivered at most
    once: when the peer repeats a reply, the first one resolves the call
    and the second one finds nothing and only logs the warning. *)
Theorem repeated_result_is_dropped (id : Z) (v1 v2 : Json) (st : State) :
  NoDup (map id_msg (request_queue st)) ->
  Exists (fun r => id_msg r = id) (request_queue st) ->
  let s1 := snd (_handle_result id v1 st) in
  deliveries s1 = deliveries st + 1 /\
  _handle_result id v2 s1 =
    (Returns tt,
     with_trace (fun t => t ++
       [Log WARNING "Recieved message (id %d) does not match any request"]) s1).
Proof.
  intros Hnd Hex.
  destruct (matched_result_resolves_first id v1 st Hex)
    as (q1 & r & q2 & Hq & _ & Hid & Hrun).
  cbn zeta. rewrite Hrun. cbn [snd]. split.
  - unfold with_queue, with_trace. counting.
  - apply unmatched_result_is_dropped_general. cbn.
    rewrite Hq in Hnd. exact (no_match_after_removal id q1 q2 r Hnd Hid).
Qed.

Lemma repeated_result_is_dropped_witness :
  NoDup (map id_msg (request_queue awaiting)) /\
  Exists (fun r => id_msg r = 7) (request_queue awaiting) /\
  deliveries (snd (_handle_result 7 "2.0" awaiting)) = deliveries awaiting + 1 /\
  fst (_handle_result 7 "again" (snd (_handle_result 7 "2.0" awaiting))) = Returns tt.
Proof.
  assert (Hnd : NoDup (map id_msg (request_queue awaiting))).
  { cbn. apply NoDup_singleton. }
  assert (Hex : Exists (fun r => id_msg r = 7) (request_queue awaiting)).
  { left. reflexivity. }
  split; [exact Hnd|]. split; [exact Hex|].
  destruct (repeated_result_is_dropped 7 "2.0" "again" awaiting Hnd Hex)
    as [Hd Hrun].
  split; [exact Hd|]. rewrite Hrun. reflexivity.
Defined.

(** *** Unbounded retries *)

Lemma unbounded_retries (k : nat) : forall (st : State) (a : Z),
  retry_max (self st) < 0 ->
  retry_attemp (self st) = Some a ->
  0 <= retry_secs (self st) ->
  all_attempts_fail k st = None /\
  wsa_thread (repeat OnClose (S k)) st =
    (Returns tt,
     {| request_queue := request_queue st;
        self := reconnecting_client (self st) a;
        trace := trace st ++ loss_notice (self st) ++
                 concat (replicate (S k) (retry_round (self st)));
        next_id := next_id st |}).
Proof.
  induction k as [|k IH]; intros st a Hneg Hatt Hsecs.
  all: assert (Hltb : (retry_max (self st) <? 0) = true) by (apply Z.ltb_lt; lia).
  all: assert (Hleft : retries_remaining st = true)
         by (unfold retries_remaining; rewrite Hatt, Hltb; reflexivity).
  all: assert (Hnext : next_attemp (self st) a = a)
         by (unfold next_attemp; rewrite Hltb; reflexivity).
  - split; [reflexivity|].
    cbn [repeat]. rewrite wsa_thread_cons.
    rewrite (close_then_retry st a Hatt Hleft Hsecs), Hnext.
    cbn [replicate concat]. rewrite app_nil_r. reflexivity.
  - set (s1 := {| request_queue := request_queue st;
                  self := reconnecting_client (self st) a;
                  trace := trace st ++ loss_notice (self st) ++ retry_round (self st);
                  next_id := next_id st |}).
    destruct (IH s1 a) as [Hnone Hrun]; [exact Hneg | reflexivity | exact Hsecs |].
    split.
    + cbn [all_attempts_fail].
      rewrite (close_then_retry st a Hatt Hleft Hsecs), Hnext.
      fold s1. assert (Hbusy : attempting s1 = true) by reflexivity.
      rewrite Hbusy. exact Hnone.
    + change (repeat OnClose (S (S k))) with (OnClose :: repeat OnClose (S k)).
      rewrite wsa_thread_cons.
      rewrite (close_then_retry st a Hatt Hleft Hsecs), Hnext.
      fold s1. rewrite Hrun. subst s1.
      cbn [request_queue self trace next_id].
      change (reconnecting_client (reconnecting_client (self st) a) a)
        with (reconnecting_client (self st) a).
      change (retry_round (reconnecting_client (self st) a))
        with (retry_round (self st)).
      unfold loss_notice at 2. cbn [connected reconnecting_client app].
      change (concat (replicate (S (S k)) (retry_round (self st))))
        with (retry_round (self st) ++
              concat (replicate (S k) (retry_round (self st)))).
      rewrite <- !app_assoc. reflexivity.
Qed.

(** X3: with a negative [retry_max] and a retry delay that is not
    negative the client never gives up: as long as attempts fail, every
    close is answered, after the delay, by a new [WebSocketApp] for the
    stored url with its thread started, which becomes the client's
    transport; the close handler returns each time, the retry counter
    stays where it was, and no amount of failures ends the retrying. *)
Theorem negative_retry_max_never_gives_up (k : nat) (st : State) (a : Z) :
  retry_max (self st) < 0 ->
  retry_attemp (self st) = Some a ->
  0 <= retry_secs (self st) ->
  all_attempts_fail k st = None /\
  wsa_thread (repeat OnClose (S k)) st =
    (Returns tt,
     {| request_queue := request_queue st;
        self := reconnecting_client (self st) a;
        trace := trace st ++ loss_notice (self st) ++
                 concat (replicate (S k) (retry_round (self st)));
        next_id := next_id st |}) /\
  attempts (snd (wsa_thread (repeat OnClose (S k)) st))
    = attempts st + Z.of_nat (S k) /\
  threads_started (snd (wsa_thread (repeat OnClose (S k)) st))
    = threads_started st + Z.of_nat (S k) /\
  sleeps (snd (wsa_thread (repeat OnClose (S k)) st))
    = sleeps st + Z.of_nat (S k).
Proof.
  intros Hneg Hatt Hsecs.
  destruct (unbounded_retries k st a Hneg Hatt Hsecs) as [Hnone Hrun].
  split; [exact Hnone|]. split; [exact Hrun|].
  rewrite Hrun. unfold attempts, threads_started, sleeps. cbn [snd trace].
  rewrite !count_app, !count_rounds.
  destruct (loss_notice_counts (self st)) as (La & Ls & Lt & _).
  destruct (retry_round_counts (self st)) as (Ra & Rs & Rt & _).
  rewrite La, Ls, Lt, Ra, Rs, Rt. repeat split; lia.
Qed.

Lemma negative_retry_max_never_gives_up_witness :
  retry_max (self (online (-1))) < 0 /\
  retry_attemp (self (online (-1))) = Some 0 /\
  0 <= retry_secs (self (online (-1))) /\
  all_attempts_fail 50 (online (-1)) = None /\
  attempts (snd (wsa_thread (repeat OnClose 51) (online (-1))))
    = attempts (online (-1)) + 51 /\
  threads_started (snd (wsa_thread (repeat OnClose 51) (online (-1))))
    = threads_started (online (-1)) + 51.
Proof.
  assert (Hsecs : 0 <= retry_secs (self (online (-1)))) by (cbn; lia).
  split; [reflexivity|]. split; [reflexivity|]. split; [exact Hsecs|].
  destruct (negative_retry_max_never_gives_up 50 (online (-1)) 0
              eq_refl eq_refl Hsecs) as (Hnone & _ & Hn & Ht & _).
  split; [exact Hnone|]. split; [exact Hn | exact Ht].
Defined.

(** *** The retry budget *)

Lemma budget_step (ev : TransportEvent) (st : State) (a : Z) :
  connection_event ev ->
  0 <= retry_max (self st) ->
  retry_attemp (self st) = Some a ->
  a <= retry_max (self st) ->
  exists a',
    retry_attemp (self (snd (deliver ev st))) = Some a' /\
    retry_max (self (snd (deliver ev st))) = retry_max (self st) /\
    a <= a' <= retry_max (self st) /\
    attempts (snd (deliver ev st)) - attempts st = a' - a.
Proof.
  intros Hev Hpos Hatt Hle. open_state st. subst att.
  assert (Hneg : (rmax <? 0) = false) by (apply Z.ltb_ge; lia).
  destruct ev; cbn in Hev; try contradiction.
  - exists a. unfold_client. unfold_state. cbn.
    destruct ch, w; cbn; repeat split; counting.
  - destruct (Z.ltb_spec a rmax) as [Hlt|Hge];
      [destruct (Z.ltb_spec rsecs 0) as [Hbad|Hok]|].
    + exists a.
      assert (Hlt' : (a <? rmax) = true) by (apply Z.ltb_lt; lia).
      assert (Hs : (rsecs <? 0) = true) by (apply Z.ltb_lt; lia).
      unfold_client. unfold_state. cbn [self retry_max retry_attemp connected].
      destruct conn, ch, w; cbn; rewrite ?Hneg, ?Hlt', ?Hs; cbn;
        repeat split; counting.
    + exists (a + 1).
      assert (Hlt' : (a <? rmax) = true) by (apply Z.ltb_lt; lia).
      assert (Hs : (rsecs <? 0) = false) by (apply Z.ltb_ge; lia).
      unfold_client. unfold_state. cbn [self retry_max retry_attemp connected].
      destruct conn, ch, w; cbn; rewrite ?Hneg, ?Hlt', ?Hs; cbn;
        repeat split; counting.
    + exists a.
      assert (Hlt' : (a <? rmax) = false) by (apply Z.ltb_ge; lia).
      unfold_client. unfold_state. cbn [self retry_max retry_attemp connected].
      destruct conn, ch, w; cbn; rewrite ?Hneg, ?Hlt'; cbn;
        repeat split; counting.
  - exists a. unfold_client. unfold_state. cbn. repeat split; counting.
Qed.

(** X4: with a bound [retry_max >= 0], the retry counter only grows and
    never passes the bound, and every automatic attempt costs one unit
    of it, whether the attempt then opens or fails.  So between two
    [connect] calls the client makes at most [retry_max] automatic
    attempts in all; an open does not give the budget back. *)
Theorem automatic_attempts_bounded (events : list TransportEvent)
    (st : State) (a : Z) :
  Forall connection_event events ->
  0 <= retry_max (self st) ->
  retry_attemp (self st) = Some a ->
  a <= retry_max (self st) ->
  exists a',
    retry_attemp (self (snd (wsa_thread events st))) = Some a' /\
    a <= a' <= retry_max (self st) /\
    attempts (snd (wsa_thread events st)) - attempts st = a' - a.
Proof.
  intros Hall. revert st a.
  induction Hall as [|ev events Hev _ IH]; intros st a Hpos Hatt Hle.
  - exists a. cbn. repeat split; try lia. exact Hatt.
  - destruct (budget_step ev st a Hev Hpos Hatt Hle)
      as (a1 & Hatt1 & Hmax1 & Hrange1 & Hn1).
    rewrite wsa_thread_cons.
    destruct (deliver ev st) as [[[]|e] s1]; cbn [snd] in *.
    + destruct (IH s1 a1) as (a' & Hatt' & Hrange' & Hn'); [lia | exact Hatt1 | lia |].
      exists a'. split; [exact Hatt'|]. split; lia.
    + exists a1. split; [exact Hatt1|]. split; lia.
Qed.

Lemma automatic_attempts_bounded_witness :
  Forall connection_event [OnClose; OnOpen; OnClose; OnOpen; OnClose; OnOpen] /\
  0 <= retry_max (self (online 2)) /\
  retry_attemp (self (online 2)) = Some 0 /\
  0 <= retry_max (self (online 2)) /\
  exists a',
    retry_attemp (self (snd (wsa_thread
      [OnClose; OnOpen; OnClose; OnOpen; OnClose; OnOpen] (online 2)))) = Some a' /\
    0 <= a' <= retry_max (self (online 2)) /\
    attempts (snd (wsa_thread
      [OnClose; OnOpen; OnClose; OnOpen; OnClose; OnOpen] (online 2)))
      - attempts (online 2) = a' - 0.
Proof.
  assert (Hall : Forall connection_event
                   [OnClose; OnOpen; OnClose; OnOpen; OnClose; OnOpen]).
  { repeat constructor. }
  split; [exact Hall|]. split; [cbn; lia|]. split; [reflexivity|].
  split; [cbn; lia|].
  apply (automatic_attempts_bounded _ (online 2) 0 Hall); cbn; [lia | reflexivity | lia].
Defined.

(** *** disconnect *)

(** X5: [disconnect()] on a connected client asks the library to close,
    once, and returns; the client still counts as connected until the
    transport reports the close.  That close then clears the flag,
    reports [False] to the connection-status callback once if there is
    one, and starts no attempt. *)
Theorem disconnect_then_close (st : State) (app : WebSocketApp) :
  connected (self st) = true ->
  wsa (self st) = Some app ->
  let s1 := snd (disconnect st) in
  let s2 := snd (deliver OnClose s1) in
  fst (disconnect st) = Returns tt /\
  connected (self s1) = true /\
  close_requests s1 = close_requests st + 1 /\
  fst (deliver OnClose s1) = Returns tt /\
  connected (self s2) = false /\
  retry_attemp (self s2) = None /\
  attempts s2 = attempts st /\
  reports_of false s2 = reports_of false st +
    match connection_handler (self st) with Some _ => 1 | None => 0 end /\
  reports_of true s2 = reports_of true st.
Proof.
  intros Hc Hw. open_state st. subst conn w.
  unfold reports_of, close_requests.
  unfold_client. unfold_state. cbn.
  destruct ch, (app_status app); cbn; repeat split; counting.
Qed.

Lemma disconnect_then_close_witness :
  connected (self (online 2)) = true /\
  wsa (self (online 2)) =
    Some {| app_url := "ws://localhost:6680/mopidy/ws"; app_status := Open |} /\
  connected (self (snd (deliver OnClose (snd (disconnect (online 2)))))) = false /\
  attempts (snd (deliver OnClose (snd (disconnect (online 2))))) = attempts (online 2).
Proof.
  split; [reflexivity|]. split; [reflexivity|].
  destruct (disconnect_then_close (online 2) _ eq_refl eq_refl)
    as (_ & _ & _ & _ & Hc & _ & Ha & _).
  split; [exact Hc | exact Ha].
Defined.



(** *** connect *)

(** X7: [connect] on a client that is not connected makes exactly one
    attempt: one [WebSocketApp], one thread, towards the url passed, or
    towards the stored url when none or the empty string is passed; the
    url used is the one stored afterwards.  Without a wait it returns
    [None] and the client is not connected yet; the pending-call table is
    not touched. *)
Theorem connect_makes_one_attempt (url : option string)
    (during : list TransportEvent) (st : State) :
  connected (self st) = false ->
  let st' := snd (connect url 0 during st) in
  fst (connect url 0 during st) = Returns None /\
  ws_url (self st') = connect_target url st /\
  wsa (self st') =
    Some {| app_url := connect_target url st; app_status := Connecting |} /\
  attempts st' = attempts st + 1 /\
  threads_started st' = threads_started st + 1 /\
  connected (self st') = false /\
  request_queue st' = request_queue st.
Proof.
  intros Hc. open_state st. subst conn.
  unfold connect, connect_target. unfold_client. unfold_state.
  cbn [self connected retry_max ws_url].
  destruct url as [u|]; cbn; [destruct (String.eqb u ""); cbn|];
    repeat split; counting.
Qed.

Lemma connect_makes_one_attempt_witness :
  connected (self (offline 2)) = false /\
  ws_url (self (snd (connect (Some "") 0 [] (offline 2))))
    = "ws://localhost:6680/mopidy/ws" /\
  attempts (snd (connect (Some "") 0 [] (offline 2))) = attempts (offline 2) + 1.
Proof.
  split; [reflexivity|].
  destruct (connect_makes_one_attempt (Some "") [] (offline 2) eq_refl)
    as (_ & Hurl & _ & Hn & _).
  split; [rewrite Hurl; reflexivity | exact Hn].
Defined.

Lemma open_sets_flag (s : State) :
  connected (self (snd (deliver OnOpen s))) = true.
Proof.
  open_state s. unfold_client. unfold_state. cbn. destruct ch, w; reflexivity.
Qed.

Lemma close_clears_flag (s : State) :
  connected (self (snd (deliver OnClose s))) = false.
Proof.
  open_state s. unfold_client. unfold_state. cbn.
  destruct conn, ch, att, w; cbn; try reflexivity;
    destruct (rmax <? 0); cbn; try reflexivity;
    destruct (rsecs <? 0); cbn; try reflexivity;
    destruct (z <? rmax); cbn; try reflexivity;
    destruct (rsecs <? 0); reflexivity.
Qed.

(** What [connect] returns after a wait is the flag as the WSA thread
    left it. *)
Lemma connect_wait_value (url : option string) (wait_secs : Z)
    (during : list TransportEvent) (st : State) :
  connected (self st) = false ->
  wait_secs <> 0 ->
  fst (connect url wait_secs during st) =
    Returns (Some (connected (self (snd
      (wsa_thread during (snd (connect url 0 [] st))))))).
Proof.
  intros Hc Hw. open_state st. subst conn.
  assert (Hz : (wait_secs =? 0) = false) by (apply Z.eqb_neq; exact Hw).
  unfold connect, truthy_int, meanwhile, _ws_connect, is_connected,
    emit, bind, get, modify, ret.
  cbn [self connected]. rewrite Hz. cbn [negb Z.eqb].
  destruct url as [u|]; [cbn [truthy_str]; destruct (String.eqb u "")|];
    reflexivity.
Qed.

(** X8: [connect] with a wait returns the state of the connection when
    the wait ends: [True] when the transport opened meanwhile, [False]
    when nothing came, and [False] as well when the attempt failed, even
    though a retry may already be under way. *)
Theorem connect_wait_reports_connection (url : option string)
    (wait_secs : Z) (st : State) :
  connected (self st) = false ->
  wait_secs <> 0 ->
  fst (connect url wait_secs [OnOpen] st) = Returns (Some true) /\
  fst (connect url wait_secs [] st) = Returns (Some false) /\
  fst (connect url wait_secs [OnClose] st) = Returns (Some false).
Proof.
  intros Hc Hw. rewrite !connect_wait_value by assumption.
  set (s0 := snd (connect url 0 [] st)).
  assert (H0 : connected (self s0) = false).
  { subst s0. open_state st. subst conn.
    unfold connect, truthy_int, _ws_connect, is_connected,
      emit, bind, get, modify, ret.
    cbn [self connected negb Z.eqb].
    destruct url as [u|]; [cbn [truthy_str]; destruct (String.eqb u "")|];
      reflexivity. }
  repeat split.
  - rewrite wsa_thread_cons.
    pose proof (open_sets_flag s0) as Ho.
    destruct (deliver OnOpen s0) as [[[]|e] s1]; cbn in Ho |- *; rewrite Ho;
      reflexivity.
  - cbn. rewrite H0. reflexivity.
  - rewrite wsa_thread_cons.
    pose proof (close_clears_flag s0) as Ho.
    destruct (deliver OnClose s0) as [[[]|e] s1]; cbn in Ho |- *; rewrite Ho;
      reflexivity.
Qed.

Lemma connect_wait_reports_connection_witness :
  connected (self (offline 2)) = false /\
  5 <> 0 /\
  fst (connect None 5 [OnOpen] (offline 2)) = Returns (Some true).
Proof.
  split; [reflexivity|]. split; [lia|].
  exact (proj1 (connect_wait_reports_connection None 5 (offline 2)
                  eq_refl ltac:(lia))).
Defined.

(** *** The call facade and the callbacks *)

Lemma py_remove_length (r : RequestMessage) (q q' : list RequestMessage) :
  py_remove r q = Some q' -> length q = S (length q').
Proof.
  revert q'. induction q as [|x q IH]; intros q'; cbn; [discriminate|].
  destruct (decide (x = r)).
  - intros [= ->]. reflexivity.
  - destruct (py_remove r q) as [rest|]; [|discriminate].
    intros [= <-]. cbn. rewrite (IH rest eq_refl). reflexivity.
Qed.

(** No transport event adds an entry to the pending-call table. *)
Lemma deliver_never_registers (ev : TransportEvent) (s : State) :
  (length (request_queue (snd (deliver ev s))) <= length (request_queue s))%nat.
Proof.
  destruct ev as [| | |message].
  - rewrite (proj1 (connection_event_keeps_table OnOpen s I)). lia.
  - rewrite (proj1 (connection_event_keeps_table OnClose s I)). lia.
  - rewrite (proj1 (connection_event_keeps_table OnError s I)). lia.
  - cbn. unfold _server_response, parse_json_message.
    destruct (decode message) as [ex|[id v|id e|name d]].
    + unfold_client. cbn. lia.
    + unfold _handle_result, try_except, bind, get, emit, modify, raise. cbn.
      destruct (first_match id (request_queue s)) as [r|]; cbn; [|lia].
      destruct (py_remove r (request_queue s)) as [q'|] eqn:Hrm; cbn; [|lia].
      apply py_remove_length in Hrm. lia.
    + open_state s. unfold_client. unfold_state. cbn. cases; lia.
    + open_state s. unfold_client. unfold_state. cbn. cases; lia.
Qed.

Lemma wsa_thread_never_registers (events : list TransportEvent) (s : State) :
  (length (request_queue (snd (wsa_thread events s))) <= length (request_queue s))%nat.
Proof.
  revert s. induction events as [|ev events IH]; intros s; [cbn; lia|].
  rewrite wsa_thread_cons. pose proof (deliver_never_registers ev s) as Hle.
  destruct (deliver ev s) as [[[]|e] s1]; cbn [snd] in *.
  - specialize (IH s1). lia.
  - exact Hle.
Qed.

(** The facade, step by step. *)
Lemma _server_request_unfold (method : string)
    (kwargs : list (string * Json)) (during : list TransportEvent)
    (st : State) :
  _server_request method kwargs during st =
    let request := {| id_msg := next_id st; req_method := method;
                      req_params := kwargs |} in
    let s0 := with_queue (fun q => q ++ [request]) (with_next_id Z.succ st) in
    match wsa_send request s0 with
    | (Returns _, s1) =>
        let s2 := snd (wsa_thread during s1) in
        match delivered request (trace s2) with
        | Some v => (Returns (Some v), s2)
        | None =>
            (Returns None, with_trace (fun t => t ++ [LogException CallTimeout]) s2)
        end
    | (Raises e, s1) =>
        (Returns None, with_trace (fun t => t ++ [LogException e]) s1)
    end.
Proof.
  unfold _server_request, new_request, wait_for_result, meanwhile,
    try_except, bind, get, modify, ret, emit, raise.
  cbv beta iota zeta.
  destruct (wsa_send _ _) as [[[]|e] s1]; cbv beta iota zeta; [|reflexivity].
  cbn [snd]. destruct (delivered _ _); reflexivity.
Qed.

(** X9: [_server_request] never raises: whatever the state of the
    transport and whatever the WSA thread handles during the wait, the
    caller gets a value back.  The call leaves at most one entry more in
    the pending-call table than it found, since nothing the WSA thread
    handles ever adds one. *)
Theorem _server_request_never_raises (method : string)
    (kwargs : list (string * Json)) (during : list TransportEvent)
    (st : State) :
  (exists r, fst (_server_request method kwargs during st) = Returns r) /\
  (length (request_queue (snd (_server_request method kwargs during st)))
     <= S (length (request_queue st)))%nat.
Proof.
  rewrite _server_request_unfold. cbv zeta.
  set (request := {| id_msg := next_id st; req_method := method;
                     req_params := kwargs |}).
  set (s0 := with_queue _ _).
  assert (Hlen : length (request_queue s0) = S (length (request_queue st))).
  { subst s0. cbn. rewrite length_app. cbn. lia. }
  assert (Hsend : request_queue (snd (wsa_send request s0)) = request_queue s0).
  { unfold wsa_send, bind, get, emit, modify, raise.
    destruct (wsa (self s0)) as [app|]; [|reflexivity].
    destruct (app_status app); reflexivity. }
  destruct (wsa_send request s0) as [[[]|e] s1]; cbn [snd fst] in Hsend |- *.
  - pose proof (wsa_thread_never_registers during s1) as Hle.
    rewrite Hsend, Hlen in Hle.
    destruct (delivered request (trace (snd (wsa_thread during s1))));
      (split; [eexists; reflexivity | cbn; lia]).
  - split; [eexists; reflexivity | cbn; rewrite Hsend, Hlen; lia].
Qed.



(** X11: an event handler that raises does not disturb the receive
    loop: the handler is called with the event's name and data, its
    exception is logged by the per-message handler, which returns
    normally, and neither the pending-call table nor the instance
    changes. *)
Theorem raising_event_handler_is_logged (message : Frame) (name : string)
    (payload : list (string * Json)) (f : Callable) (st : State) :
  decode message = inr (Event name payload) ->
  event_handler (self st) = Some f ->
  fn_raises f = true ->
  _server_response message st =
    (Returns tt,
     with_trace (fun t => (t ++ [Invoke (fn_name f) (name :: map snd payload)])
                            ++ [LogException (HandlerError (fn_name f))]) st).
Proof.
  intros Hd Hh Hr. open_state st. subst eh.
  unfold _server_response, parse_json_message. rewrite Hd.
  unfold_client. unfold_state. cbn. rewrite Hr. reflexivity.
Qed.

Lemma raising_event_handler_is_logged_witness :
  decode playback_event = inr (Event "track_playback_started" [("tl_track", "{}")]) /\
  event_handler (self (with_event_handler on_event_raising awaiting))
    = Some on_event_raising /\
  fn_raises on_event_raising = true /\
  fst (_server_response playback_event
         (with_event_handler on_event_raising awaiting)) = Returns tt.
Proof.
  split; [reflexivity|]. split; [reflexivity|]. split; [reflexivity|].
  rewrite (raising_event_handler_is_logged playback_event
             "track_playback_started" [("tl_track", "{}")] on_event_raising
             (with_event_handler on_event_raising awaiting)
             eq_refl eq_refl eq_refl).
  reflexivity.
Defined.

(** *** Construction *)



(** ** Properties of the formats *)

Lemma forall_below (p : Z -> bool) (n : nat) :
  forallb (fun k => p (Z.of_nat k)) (seq 0 n) = true ->
  forall z, 0 <= z < Z.of_nat n -> p z = true.
Proof.
  intros H z Hz. rewrite forallb_forall in H.
  specialize (H (Z.to_nat z)). rewrite Z2Nat.id in H by lia.
  apply H. apply in_seq. lia.
Qed.

Lemma two_digits (k : Z) :
  0 <= k < 100 -> String.length (fmt_d true 2 k) = 2%nat.
Proof.
  intros Hk. apply Nat.eqb_eq.
  apply (forall_below (fun z => Nat.eqb (String.length (fmt_d true 2 z)) 2) 100);
    [vm_compute; reflexivity | lia].
Qed.

(** X13: a time position of [data >= 0] milliseconds is shown as whole
    seconds, rounded down, split into hours, minutes and seconds that add
    up to them: minutes and seconds are below 60 and always take two
    digits, and the hours are shown, unpadded and followed by [h], only
    from one hour on. *)
Theorem time_position_fields (data : Z) :
  0 <= data ->
  exists h m s : Z,
    0 <= h /\ 0 <= m < 60 /\ 0 <= s < 60 /\
    data / 1000 = 3600 * h + 60 * m + s /\
    format_time_position data =
      (if h =? 0 then fmt_d true 2 m +:+ "m" +:+ fmt_d true 2 s +:+ "s"
       else pretty h +:+ "h" +:+ fmt_d true 2 m +:+ "m" +:+ fmt_d true 2 s +:+ "s") /\
    String.length (fmt_d true 2 m) = 2%nat /\
    String.length (fmt_d true 2 s) = 2%nat.
Proof.
  intros Hd. unfold format_time_position. cbv zeta.
  set (secs := data / 1000).
  assert (Hsecs : 0 <= secs) by (subst secs; apply Z.div_pos; lia).
  exists (secs / 3600), ((secs / 60) mod 60), (secs mod 60).
  assert (Hh : 0 <= secs / 3600) by (apply Z.div_pos; lia).
  assert (Hm : 0 <= (secs / 60) mod 60 < 60) by (apply Z.mod_pos_bound; lia).
  assert (Hs : 0 <= secs mod 60 < 60) by (apply Z.mod_pos_bound; lia).
  split; [exact Hh|]. split; [exact Hm|]. split; [exact Hs|].
  split; [clear -Hsecs; Z.to_euclidean_division_equations; lia|].
  split; [|split; apply two_digits; lia].
  destruct (Z.ltb_spec (secs / 3600) 1) as [Hlt|Hge].
  - assert (H0 : secs / 3600 = 0) by lia. rewrite H0. cbn [Z.eqb].
    assert (Hsmall : (secs / 60) mod 60 = secs / 60).
    { apply Z.mod_small. clear -Hsecs H0.
      Z.to_euclidean_division_equations. lia. }
    rewrite Hsmall. reflexivity.
  - assert (Hnz : (secs / 3600 =? 0) = false) by (apply Z.eqb_neq; lia).
    rewrite Hnz. unfold fmt_d at 1, rjust at 1.
    rewrite Nat.sub_0_l. reflexivity.
Qed.

Lemma time_position_fields_witness :
  0 <= 45296789 /\
  exists h m s : Z,
    data_fields_ok 45296789 h m s /\
    format_time_position 45296789 =
      (if h =? 0 then fmt_d true 2 m +:+ "m" +:+ fmt_d true 2 s +:+ "s"
       else pretty h +:+ "h" +:+ fmt_d true 2 m +:+ "m" +:+ fmt_d true 2 s +:+ "s").
Proof.
  split; [lia|].
  destruct (time_position_fields 45296789 ltac:(lia))
    as (h & m & s & Hh & Hm & Hs & Hsum & Hfmt & _).
  exists h, m, s. split; [|exact Hfmt].
  unfold data_fields_ok. repeat split; try lia; exact Hsum.
Defined.

(** X14: a volume between 0 and 100 is shown with its number right
    aligned in three columns and a bar of one [#] per full 20, right
    aligned in five columns between the brackets: eleven characters in
    all, whatever the volume. *)
Theorem volume_bar_fits (data : Z) :
  0 <= data <= 100 ->
  format_volume data =
    fmt_d false 3 data +:+ " [" +:+
    string_of_list_ascii (replicate (5 - Z.to_nat (data / 20)) " "%char) +:+
    hashes (data / 20) +:+ "]" /\
  String.length (format_volume data) = 11%nat.
Proof.
  intros Hd.
  pose (p := fun z : Z =>
    String.eqb (format_volume z)
      (fmt_d false 3 z +:+ " [" +:+
       string_of_list_ascii (replicate (5 - Z.to_nat (z / 20)) " "%char) +:+
       hashes (z / 20) +:+ "]")
    && Nat.eqb (String.length (format_volume z)) 11).
  assert (Hp : p data = true).
  { apply (forall_below p 101); [vm_compute; reflexivity | lia]. }
  subst p. cbv beta in Hp. apply andb_true_iff in Hp. destruct Hp as [H1 H2].
  split; [apply String.eqb_eq; exact H1 | apply Nat.eqb_eq; exact H2].
Qed.

Lemma volume_bar_fits_witness :
  0 <= 65 <= 100 /\ format_volume 65 = " 65 [  ###]".
Proof.
  split; [lia|].
  rewrite (proj1 (volume_bar_fits 65 ltac:(lia))). reflexivity.
Defined.

(** ** A call that is answered *)

Lemma first_match_last (id : Z) (q : list RequestMessage) (r : RequestMessage) :
  Forall (fun x => id_msg x <> id) q -> id_msg r = id ->
  first_match id (q ++ [r]) = Some r.
Proof.
  intros Hall Hid. induction Hall as [|x q Hx _ IH]; cbn.
  - destruct (Z.eqb_spec (id_msg r) id); [reflexivity|contradiction].
  - destruct (Z.eqb_spec (id_msg x) id); [contradiction | exact IH].
Qed.

Lemma py_remove_last (id : Z) (q : list RequestMessage) (r : RequestMessage) :
  Forall (fun x => id_msg x <> id) q -> id_msg r = id ->
  py_remove r (q ++ [r]) = Some q.
Proof.
  intros Hall Hid. induction Hall as [|x q Hx _ IH]; cbn.
  - destruct (decide (r = r)); [reflexivity|contradiction].
  - destruct (decide (x = r)) as [->|_]; [contradiction|].
    rewrite IH. reflexivity.
Qed.

Lemma delivered_snoc (req : RequestMessage) (t : list Effect) (e : Effect) :
  delivered req t = None ->
  delivered req (t ++ [e]) = delivered req [e].
Proof.
  induction t as [|x t IH]; intros Hn; [reflexivity|].
  destruct x; cbn in Hn |- *; try (apply IH; exact Hn).
  destruct (decide (req0 = req)); [discriminate | apply IH; exact Hn].
Qed.

(** X16: the ordinary call.  On an open transport, with an identifier
    that no pending request carries, a call whose result frame arrives
    during the wait sends its request once, returns that very result,
    and leaves the pending-call table and the instance as it found them. *)
Theorem answered_call_returns_result (method : string)
    (kwargs : list (string * Json)) (message : Frame) (v : Json) (st : State) :
  sendable st = true ->
  Forall (fun r => id_msg r <> next_id st) (request_queue st) ->
  delivered {| id_msg := next_id st; req_method := method; req_params := kwargs |}
            (trace st) = None ->
  decode message = inr (Result (next_id st) v) ->
  _server_request method kwargs [OnMessage message] st =
    (Returns (Some v),
     {| request_queue := request_queue st;
        self := self st;
        trace := (trace st ++
                  [Send {| id_msg := next_id st; req_method := method;
                           req_params := kwargs |}]) ++
                  [Callback {| id_msg := next_id st; req_method := method;
                               req_params := kwargs |} v];
        next_id := Z.succ (next_id st) |}).
Proof.
  intros Hs Hfresh Hnone Hd.
  rewrite _server_request_unfold. cbv zeta.
  set (request := {| id_msg := next_id st; req_method := method;
                     req_params := kwargs |}) in *.
  assert (Hsend : wsa_send request
            (with_queue (fun q => q ++ [request]) (with_next_id Z.succ st)) =
          (Returns tt,
           {| request_queue := request_queue st ++ [request];
              self := self st;
              trace := trace st ++ [Send request];
              next_id := Z.succ (next_id st) |})).
  { unfold sendable in Hs. unfold wsa_send, bind, get, emit, modify, raise.
    cbn. destruct (wsa (self st)) as [app|]; [|discriminate Hs].
    destruct (app_status app); try discriminate Hs. reflexivity. }
  rewrite Hsend. clear Hsend.
  assert (Hrecv : wsa_thread [OnMessage message]
            {| request_queue := request_queue st ++ [request];
               self := self st;
               trace := trace st ++ [Send request];
               next_id := Z.succ (next_id st) |} =
          (Returns tt,
           {| request_queue := request_queue st;
              self := self st;
              trace := (trace st ++ [Send request]) ++ [Callback request v];
              next_id := Z.succ (next_id st) |})).
  { rewrite wsa_thread_cons. cbn [deliver].
    unfold _server_response, parse_json_message. rewrite Hd.
    unfold _handle_result, try_except, bind, get, emit, modify, raise.
    cbn [request_queue].
    rewrite (first_match_last (next_id st) _ request Hfresh eq_refl).
    cbn -[py_remove]. 
    rewrite (py_remove_last (next_id st) _ request Hfresh eq_refl).
    reflexivity. }
  rewrite Hrecv. cbn [snd trace].
  rewrite delivered_snoc.
  - cbn. destruct (decide (request = request)); [reflexivity|contradiction].
  - rewrite delivered_snoc by exact Hnone. reflexivity.
Qed.

Lemma answered_call_returns_result_witness :
  sendable (online 2) = true /\
  Forall (fun r => id_msg r <> next_id (online 2)) (request_queue (online 2)) /\
  fst (_server_request "core.get_version" [] [OnMessage (result_reply 1 "2.0")]
         (online 2)) = Returns (Some "2.0").
Proof.
  split; [reflexivity|]. split; [constructor|].
  rewrite (answered_call_returns_result "core.get_version" [] (result_reply 1 "2.0")
             "2.0" (online 2) eq_refl ltac:(constructor) eq_refl eq_refl).
  reflexivity.
Defined.
